(** * quaylib: mirroring docker.io/library to quay.io/lib

    A shallow embedding of [src/quaylib/main.py] and the properties of its
    synchronisation logic.

    The Python code talks to three collaborators: the Docker Hub HTTP API,
    the Quay HTTP API and the [skopeo] executable.  Each of them is modelled
    as a script: the list of answers it is going to give, consumed front to
    back.  Everything the program does to them (requests sent, processes
    spawned, sleeps) is recorded in the [world], so that theorems can speak
    about the exact sequence of effects. *)

From Stdlib Require Import String List ZArith Bool Lia Ascii.
Import ListNotations.

Set Warnings "-register-all".

Open Scope string_scope.
Open Scope list_scope.
Open Scope Z_scope.

Infix "+++" := String.append (right associativity, at level 60).

(** ** Values decoded from JSON

    What [r.json()] returns.  Numbers are the integer literals only; nothing
    in the program computes with a JSON number. *)

Inductive json : Type :=
| JNull
| JBool (b : bool)
| JNum (n : Z)
| JStr (s : string)
| JArr (items : list json)
| JObj (fields : list (string * json)).

(** Python truthiness ([while url:], [if j["has_additional"]:]). *)
Definition truthy (j : json) : bool :=
  match j with
  | JNull => false
  | JBool b => b
  | JNum n => negb (n =? 0)
  | JStr s => negb (String.eqb s EmptyString)
  | JArr items => match items with [] => false | _ => true end
  | JObj fields => match fields with [] => false | _ => true end
  end.

(** ** HTTP messages *)

Inductive method := GET | POST | PUT.

Record request := mkRequest {
  req_method : method;
  req_url : string;
  req_params : list (string * json);
  req_json : option json
}.

(** The parts of an [httpx.Response] the program looks at.  [retry_after] is
    what the header lookup [r.headers["Retry-After"]] finds ([None]: the
    header is not there); [json_body] is the decoded body ([None]: the body
    is not JSON). *)
Record response := mkResponse {
  status_code : Z;
  retry_after : option string;
  json_body : option json
}.

(** ** Exceptions and outcomes *)

Inductive exn :=
| KeyError (key : string)
| TypeError
| ValueError
| HTTPStatusError (r : response)
| TransportError
| RecursionError
| CalledProcessError (returncode : Z)
| OSError.

(** Why the model stops without an answer of the program: a collaborator's
    script has no answer left, or a value falls outside what is modelled
    (a tag name or a description that is not a string). *)
Inductive halt := ScriptExhausted | Unmodelled.

Inductive outcome (A : Type) :=
| Ok (a : A)
| Raise (e : exn)
| Halt (h : halt).
Arguments Ok {A} a.
Arguments Raise {A} e.
Arguments Halt {A} h.

(** ** [datetime]

    A datetime is its wall-clock reading, in microseconds since the epoch,
    and the UTC offset of its [tzinfo] in microseconds; [None] is a naive
    datetime.  Both parsers the program uses build fixed-offset zones. *)

Record datetime := mkDatetime {
  wall : Z;
  utcoffset : option Z
}.

Definition UTC : Z := 0.

Definition is_aware (d : datetime) : bool :=
  match utcoffset d with Some _ => true | None => false end.

(** [d.replace(tzinfo=UTC)] *)
Definition replace_tzinfo (d : datetime) (off : Z) : datetime :=
  {| wall := wall d; utcoffset := Some off |}.

(** Ordering of datetimes: two naive values compare by wall clock, two aware
    values by instant, and a naive value against an aware one has no order
    (Python raises [TypeError]). *)
Definition dt_compare (a b : datetime) : option comparison :=
  match utcoffset a, utcoffset b with
  | None, None => Some (wall a ?= wall b)
  | Some oa, Some ob => Some ((wall a - oa) ?= (wall b - ob))
  | _, _ => None
  end.

(** [a >= b] *)
Definition dt_ge (a b : datetime) : outcome bool :=
  match dt_compare a b with
  | Some Lt => Ok false
  | Some _ => Ok true
  | None => Raise TypeError
  end.

(** ** [dict] with string keys

    Insertion-ordered, as Python's: assigning to a key that is there keeps
    its position, a new key goes to the end; [items()] is the list itself. *)

Definition dict (V : Type) := list (string * V).

Fixpoint dict_get {V} (k : string) (d : dict V) : option V :=
  match d with
  | [] => None
  | (k', v) :: d' => if String.eqb k' k then Some v else dict_get k d'
  end.

Fixpoint dict_set {V} (k : string) (v : V) (d : dict V) : dict V :=
  match d with
  | [] => [(k, v)]
  | (k', v') :: d' =>
      if String.eqb k' k then (k', v) :: d' else (k', v') :: dict_set k v d'
  end.

Definition dict_keys {V} (d : dict V) : list string := map fst d.

(** ** Library functions the program calls

    The Python standard library is not part of the repository.  Its
    functions are taken as an interface; [None] is the function raising
    [ValueError]. *)

Class PyRuntime := {
  (** [int(s)] on a string *)
  py_int : string -> option Z;
  (** [textwrap.dedent] *)
  dedent : string -> string;
  (** [datetime.fromisoformat] *)
  fromisoformat : string -> option datetime;
  (** [email.utils.parsedate_to_datetime] *)
  parsedate_to_datetime : string -> option datetime;
  (** How many more times than once a call of [DockerClient.request] can
      call itself.  CPython raises [RecursionError] on the call that would
      exceed [sys.getrecursionlimit()] frames (1000 unless it is changed,
      and the program does not change it); where the program calls
      [request] it has used a fixed few of them, so a first nested call
      always fits. *)
  more_nested_calls : nat
}.

(** The nested calls of [DockerClient.request] that fit on the interpreter's
    stack. *)
Definition nested_calls `{PyRuntime} : nat := S more_nested_calls.

(** ** The world *)

Inductive client := Docker | Quay.

(** One answer of a server: a response, or no response at all (connection
    refused, timeout: httpx raises a transport error). *)
Inductive reply :=
| Response (r : response)
| NoResponse.

(** One run of a child process: its exit status, or the executable could
    not be started. *)
Inductive completed :=
| Exited (returncode : Z)
| NotStarted.

(** [clock] is [time.time()] in microseconds.  Python computes with a float
    number of seconds; the model computes exactly.  Time passes only in
    [asyncio.sleep]. *)
Record world := mkWorld {
  docker_script : list reply;
  quay_script : list reply;
  skopeo_script : list completed;
  clock : Z;
  sent : list (client * request);
  slept : list Z;
  spawned : list (list string)
}.

Definition script_of (c : client) (w : world) : list reply :=
  match c with Docker => docker_script w | Quay => quay_script w end.

Definition answered (c : client) (rq : request) (rest : list reply) (w : world)
  : world :=
  {| docker_script := match c with Docker => rest | Quay => docker_script w end;
     quay_script := match c with Docker => quay_script w | Quay => rest end;
     skopeo_script := skopeo_script w;
     clock := clock w;
     sent := sent w ++ [(c, rq)];
     slept := slept w;
     spawned := spawned w |}.

(** ** The monad of effectful computations *)

Definition M (A : Type) : Type := world -> outcome A * world.

Definition ret {A} (a : A) : M A := fun w => (Ok a, w).

Definition raise {A} (e : exn) : M A := fun w => (Raise e, w).

Definition stop {A} (h : halt) : M A := fun w => (Halt h, w).

Definition bind {A B} (m : M A) (k : A -> M B) : M B :=
  fun w =>
    match m w with
    | (Ok a, w') => k a w'
    | (Raise e, w') => (Raise e, w')
    | (Halt h, w') => (Halt h, w')
    end.

Notation "x <- m ;; k" := (bind m (fun x => k))
  (at level 61, m at next level, right associativity).
Notation "m ;;; k" := (bind m (fun _ => k))
  (at level 61, right associativity).

Definition lift {A} (o : outcome A) : M A := fun w => (o, w).

Definition or_raise {A} (e : exn) (o : option A) : M A :=
  match o with Some a => ret a | None => raise e end.

(** ** Primitive effects *)

(** One round trip of [httpx.AsyncClient.request]. *)
Definition send (c : client) (rq : request) : M response :=
  fun w =>
    match script_of c w with
    | [] => (Halt ScriptExhausted, answered c rq [] w)
    | Response r :: rest => (Ok r, answered c rq rest w)
    | NoResponse :: rest => (Raise TransportError, answered c rq rest w)
    end.

(** [time.time()] *)
Definition time_time : M Z := fun w => (Ok (clock w), w).

(** [asyncio.sleep(delay)]: a delay that is zero or negative only yields to
    the event loop and comes back at once. *)
Definition asyncio_sleep (delay : Z) : M unit :=
  fun w =>
    (Ok tt,
     {| docker_script := docker_script w;
        quay_script := quay_script w;
        skopeo_script := skopeo_script w;
        clock := if delay <=? 0 then clock w else clock w + delay;
        sent := sent w;
        slept := slept w ++ [delay];
        spawned := spawned w |}).

(** [subprocess.run(args, check=True)] *)
Definition subprocess_run (args : list string) : M unit :=
  fun w =>
    let w' rest :=
      {| docker_script := docker_script w;
         quay_script := quay_script w;
         skopeo_script := rest;
         clock := clock w;
         sent := sent w;
         slept := slept w;
         spawned := spawned w ++ [args] |} in
    match skopeo_script w with
    | [] => (Halt ScriptExhausted, w' [])
    | Exited code :: rest =>
        if code =? 0 then (Ok tt, w' rest)
        else (Raise (CalledProcessError code), w' rest)
    | NotStarted :: rest => (Raise OSError, w' rest)
    end.

(** [r.raise_for_status()]: anything but a 2xx status raises. *)
Definition is_success (r : response) : bool :=
  (200 <=? status_code r) && (status_code r <=? 299).

Definition is_redirect (r : response) : bool :=
  (300 <=? status_code r) && (status_code r <=? 399).

Definition raise_for_status (r : response) : M unit :=
  if is_success r then ret tt else raise (HTTPStatusError r).

(** [r.json()] *)
Definition json_of (r : response) : M json :=
  or_raise ValueError (json_body r).

(** [j[key]] on a decoded JSON value *)
Fixpoint lookup (key : string) (fields : list (string * json)) : option json :=
  match fields with
  | [] => None
  | (k, v) :: rest => if String.eqb k key then Some v else lookup key rest
  end.

Definition getitem (j : json) (key : string) : M json :=
  match j with
  | JObj fields => or_raise (KeyError key) (lookup key fields)
  | _ => raise TypeError
  end.

(** [for x in j] on a decoded JSON value: the elements of an array, the keys
    of an object, the characters of a string. *)
Definition iterate (j : json) : M (list json) :=
  match j with
  | JArr items => ret items
  | JObj fields => ret (map (fun kv => JStr (fst kv)) fields)
  | JStr s => ret (map (fun c => JStr (String c EmptyString)) (list_ascii_of_string s))
  | _ => raise TypeError
  end.

(** ** [DockerClient.request] (lines 33-41)

    The method calls itself after every 429 (line 41), one frame deeper
    each time: this is a recursion of the interpreter, not a loop.  [calls]
    is the number of nested calls the stack still admits; when none is
    left, the call of line 41 raises [RecursionError] and nothing more is
    sent. *)

Fixpoint DockerClient_request `{PyRuntime} (calls : nat) (rq : request)
  : M response :=
  r <- send Docker rq ;;
  if negb (status_code r =? 429) then ret r
  else
    header <- or_raise (KeyError "Retry-After") (retry_after r) ;;
    seconds <- or_raise ValueError (py_int header) ;;
    now <- time_time ;;
    asyncio_sleep (seconds * 1000000 - now) ;;;
    match calls with
    | O => raise RecursionError
    | S calls' => DockerClient_request calls' rq
    end.

Definition docker_request `{PyRuntime} (rq : request) : M response :=
  DockerClient_request nested_calls rq.

(** [docker.get(url)]: httpx's [get] goes through [self.request]. *)
Definition docker_get `{PyRuntime} (url : string) : M response :=
  docker_request (mkRequest GET url [] None).

(** [quay] is a plain [httpx.AsyncClient]. *)
Definition quay_get (url : string) (params : list (string * json))
  : M response :=
  send Quay (mkRequest GET url params None).

Definition quay_post (url : string) (body : json) : M response :=
  send Quay (mkRequest POST url [] (Some body)).

Definition quay_put (url : string) (body : json) : M response :=
  send Quay (mkRequest PUT url [] (Some body)).

(** ** [ensure_quay_repo] (lines 60-121) *)

Definition dquote : string := String "034"%char EmptyString.
Definition nl : string := String "010"%char EmptyString.
Definition margin : string := "        ".

(** The f-string of lines 76-88, before [textwrap.dedent]. *)
Definition preamble_text (logo description repo : string) : string :=
  margin +++ logo +++ " " +++ description +++ nl +++
  nl +++
  margin +++ "---" +++ nl +++
  nl +++
  margin +++ "> _**NOTE**: Digests for multi-platform images may differ from Docker" +++ nl +++
  margin +++ "Hub if manifests were converted to OCI format. Please pin to a" +++ nl +++
  margin +++ "[platform-specific sha256 digest](https://hub.docker.com/_/"
         +++ repo +++ "/tags?name=latest)" +++ nl +++
  margin +++ "instead._" +++ nl +++
  nl +++
  margin +++ "---" +++ nl +++
  nl +++
  margin.

(** A value interpolated in an f-string. *)
Definition format_value (j : json) : M string :=
  match j with
  | JStr s => ret s
  | JNull => ret "None"
  | JBool true => ret "True"
  | JBool false => ret "False"
  | _ => stop Unmodelled
  end.

(** [preamble + v]: only a string can be appended to a string. *)
Definition str_add (s : string) (j : json) : M string :=
  match j with
  | JStr t => ret (s +++ t)
  | _ => raise TypeError
  end.

(** [v == s] for a string [s] *)
Definition eq_str (j : json) (s : string) : bool :=
  match j with
  | JStr t => String.eqb t s
  | _ => false
  end.

(** Lines 62-90: the description composed from Docker Hub. *)
Definition compose_description `{PyRuntime} (repo : string) : M string :=
  let logo_url :=
    "https://hub.docker.com/api/media/repos_logo/v1/library%2F" +++ repo in
  r <- docker_get logo_url ;;
  let logo :=
    if is_success r || is_redirect r
    then Some ("<img src=" +++ dquote +++ logo_url +++ dquote
               +++ " height=" +++ dquote +++ "34" +++ dquote +++ "/>")
    else None in
  r <- docker_get ("namespaces/library/repositories/" +++ repo) ;;
  raise_for_status r ;;;
  info <- json_of r ;;
  short <- getitem info "description" ;;
  short <- format_value short ;;
  let preamble :=
    dedent (preamble_text (match logo with Some l => l | None => EmptyString end)
                          short repo) in
  full <- getitem info "full_description" ;;
  str_add preamble full.

(** [try: ... except httpx.HTTPStatusError as e: ...] *)
Definition except_status {A} (body : M A) (handler : response -> M A) : M A :=
  fun w =>
    match body w with
    | (Raise (HTTPStatusError r), w') => handler r w'
    | other => other
    end.

Definition create_body (repo description : string) : json :=
  JObj [ ("namespace", JStr "lib");
         ("repository", JStr repo);
         ("description", JStr description);
         ("visibility", JStr "public");
         ("repo_kind", JStr "image") ].

Definition update_body (description : string) : json :=
  JObj [ ("description", JStr description) ].

(** Lines 92-121.  The [try] block gives [Some r] when it falls through to
    line 112, the handler gives [None] when it returns on line 110. *)
Definition ensure_description (repo description : string) : M unit :=
  found <-
    except_status
      (r <- quay_get ("repository/lib/" +++ repo) [] ;;
       raise_for_status r ;;;
       ret (Some r))
      (fun e_response =>
         if negb (status_code e_response =? 404)
         then raise (HTTPStatusError e_response)
         else
           r <- quay_post "repository" (create_body repo description) ;;
           raise_for_status r ;;;
           ret None) ;;
  match found with
  | None => ret tt
  | Some r =>
      j <- json_of r ;;
      stored <- getitem j "description" ;;
      if eq_str stored description then ret tt
      else
        r <- quay_put ("repository/lib/" +++ repo) (update_body description) ;;
        raise_for_status r
  end.

Definition ensure_quay_repo `{PyRuntime} (repo : string) : M unit :=
  description <- compose_description repo ;;
  ensure_description repo description.

(** ** Tag listings *)

(** The key of [tags[name] = d]: a list or an object is unhashable; keys
    other than strings are not modelled. *)
Definition dict_key (j : json) : M string :=
  match j with
  | JStr s => ret s
  | JArr _ | JObj _ => raise TypeError
  | _ => stop Unmodelled
  end.

(** A URL handed to httpx must be a string. *)
Definition url_of (j : json) : M string :=
  match j with
  | JStr s => ret s
  | _ => raise TypeError
  end.

(** Lines 131-132.  Python evaluates the right-hand side of the assignment
    before the subscript of its target. *)
Fixpoint store_docker_results `{PyRuntime} (results : list json)
  (tags : dict datetime) : M (dict datetime) :=
  match results with
  | [] => ret tags
  | result :: rest =>
      last_updated <- getitem result "last_updated" ;;
      d <- match last_updated with
           | JStr s => or_raise ValueError (fromisoformat s)
           | _ => raise TypeError
           end ;;
      name <- getitem result "name" ;;
      key <- dict_key name ;;
      store_docker_results rest (dict_set key d tags)
  end.

(** The loop of lines 127-133; every turn takes at least one answer from
    Docker Hub's script. *)
Fixpoint get_tags_docker_loop `{PyRuntime} (fuel : nat) (url : json)
  (tags : dict datetime) : M (dict datetime) :=
  if truthy url then
    match fuel with
    | O => stop ScriptExhausted
    | S fuel' =>
        u <- url_of url ;;
        r <- docker_get u ;;
        raise_for_status r ;;;
        j <- json_of r ;;
        results <- getitem j "results" ;;
        results <- iterate results ;;
        tags <- store_docker_results results tags ;;
        next <- getitem j "next" ;;
        get_tags_docker_loop fuel' next tags
    end
  else ret tags.

Definition docker_tags_url (repo : string) : string :=
  "namespaces/library/repositories/" +++ repo +++ "/tags?page_size=100".

Definition get_tags_docker `{PyRuntime} (repo : string) : M (dict datetime) :=
  fun w =>
    get_tags_docker_loop (S (length (docker_script w)))
                         (JStr (docker_tags_url repo)) [] w.

(** Lines 152-156.  A [last_modified] that is not a string is not
    modelled. *)
Fixpoint store_quay_tags `{PyRuntime} (items : list json)
  (tags : dict datetime) : M (dict datetime) :=
  match items with
  | [] => ret tags
  | tag :: rest =>
      last_modified <- getitem tag "last_modified" ;;
      d <- match last_modified with
           | JStr s => or_raise ValueError (parsedate_to_datetime s)
           | _ => stop Unmodelled
           end ;;
      let d := match utcoffset d with
               | None => replace_tzinfo d UTC
               | Some _ => d
               end in
      name <- getitem tag "name" ;;
      key <- dict_key name ;;
      store_quay_tags rest (dict_set key d tags)
  end.

Definition quay_tags_params (page : Z) : list (string * json) :=
  [ ("page", JNum page); ("limit", JNum 100); ("onlyActiveTags", JBool true) ].

(** [while page:] with [page] an integer or [None] *)
Definition page_truthy (page : option Z) : bool :=
  match page with
  | Some p => negb (p =? 0)
  | None => false
  end.

(** The loop of lines 140-160; every turn takes one answer from Quay's
    script. *)
Fixpoint get_tags_quay_loop `{PyRuntime} (fuel : nat) (repo : string)
  (page : option Z) (tags : dict datetime) : M (dict datetime) :=
  match page_truthy page, page with
  | true, Some p =>
      match fuel with
      | O => stop ScriptExhausted
      | S fuel' =>
          r <- quay_get ("repository/lib/" +++ repo +++ "/tag/")
                        (quay_tags_params p) ;;
          raise_for_status r ;;;
          j <- json_of r ;;
          items <- getitem j "tags" ;;
          items <- iterate items ;;
          tags <- store_quay_tags items tags ;;
          more <- getitem j "has_additional" ;;
          get_tags_quay_loop fuel' repo
                             (if truthy more then Some (p + 1) else None) tags
      end
  | _, _ => ret tags
  end.

Definition get_tags_quay `{PyRuntime} (repo : string) : M (dict datetime) :=
  fun w =>
    get_tags_quay_loop (S (length (quay_script w))) repo (Some 1) [] w.

(** ** [sync] (lines 164-192)

    [tags_docker] and [tags_quay] are what the [asyncio.gather] of lines
    166-170 has returned; the interleaving of the three gathered reads is
    not modelled, nor is the progress line printed on line 165. *)

Definition skopeo_args (repo auth_file tag : string) : list string :=
  [ "skopeo";
    "sync";
    "--src=docker";
    "--dest=docker";
    "--authfile=" +++ auth_file;
    "--all";
    "docker.io/library/" +++ repo +++ ":" +++ tag;
    "quay.io/lib";
    "--format=oci" ].

Fixpoint sync (repo auth_file : string) (tags_docker tags_quay : dict datetime)
  : M unit :=
  match tags_docker with
  | [] => ret tt
  | (tag, docker_modified) :: rest =>
      in_sync <- match dict_get tag tags_quay with
                 | Some quay_modified =>
                     lift (dt_ge quay_modified docker_modified)
                 | None => ret false
                 end ;;
      if in_sync then sync repo auth_file rest tags_quay
      else
        subprocess_run (skopeo_args repo auth_file tag) ;;;
        sync repo auth_file rest tags_quay
  end.

(** ** The specification's vocabulary *)

(** A sync unit is stale when the tag is absent from the destination tag
    map, or its destination timestamp is strictly older than its source
    timestamp. *)
Definition stale (tags_quay : dict datetime) (tag : string)
  (source_time : datetime) : Prop :=
  dict_get tag tags_quay = None \/
  exists dest_time,
    dict_get tag tags_quay = Some dest_time /\
    dt_compare dest_time source_time = Some Lt.

(** The same rule as a test on one item of the source tag map. *)
Definition needs_copy (tags_quay : dict datetime) (item : string * datetime)
  : bool :=
  match dict_get (fst item) tags_quay with
  | None => true
  | Some dest_time =>
      match dt_compare dest_time (snd item) with
      | Some Lt => true
      | _ => false
      end
  end.

(** Nothing changed but the child-process script and its log. *)
Definition only_spawns (w w' : world) : Prop :=
  docker_script w' = docker_script w /\
  quay_script w' = quay_script w /\
  clock w' = clock w /\
  sent w' = sent w /\
  slept w' = slept w.

(** The copy invocations made between two worlds. *)
Definition copies (w w' : world) : list (list string) :=
  skipn (length (spawned w)) (spawned w').

(** The requests sent between two worlds. *)
Definition requests (w w' : world) : list (client * request) :=
  skipn (length (sent w)) (sent w').

(** The sleeps made between two worlds. *)
Definition sleeps (w w' : world) : list Z :=
  skipn (length (slept w)) (slept w').

(** ** Sample data *)

Definition at_utc (seconds : Z) : datetime :=
  {| wall := seconds * 1000000; utcoffset := Some UTC |}.

Definition quiet : world :=
  {| docker_script := []; quay_script := []; skopeo_script := [];
     clock := 0; sent := []; slept := []; spawned := [] |}.

Definition with_skopeo (runs : list completed) (w : world) : world :=
  {| docker_script := docker_script w; quay_script := quay_script w;
     skopeo_script := runs;
     clock := clock w; sent := sent w; slept := slept w;
     spawned := spawned w |}.

(** Source [{latest: 100, 1.0: 50}], destination [{1.0: 50}]. *)
Definition sample_source : dict datetime :=
  [ ("latest", at_utc 100); ("1.0", at_utc 50) ].

Definition sample_dest : dict datetime :=
  [ ("1.0", at_utc 50) ].

(** A runtime for the examples: decimal [int], and the two date parsers on
    the handful of strings the examples use.  The theorems hold for every
    runtime. *)

Definition digit_of (c : ascii) : option Z :=
  let n := Z.of_nat (nat_of_ascii c) in
  if (48 <=? n) && (n <=? 57) then Some (n - 48) else None.

Fixpoint digits (s : string) (acc : Z) : option Z :=
  match s with
  | EmptyString => Some acc
  | String c s' =>
      match digit_of c with
      | Some d => digits s' (10 * acc + d)
      | None => None
      end
  end.

Definition decimal (s : string) : option Z :=
  match s with
  | EmptyString => None
  | _ => digits s 0
  end.

Definition sample_fromisoformat (s : string) : option datetime :=
  if String.eqb s "1970-01-01T00:01:40+00:00" then Some (at_utc 100)
  else if String.eqb s "1970-01-01T00:00:50+00:00" then Some (at_utc 50)
  else if String.eqb s "1970-01-01T00:01:10+00:00" then Some (at_utc 70)
  else if String.eqb s "1970-01-01T00:00:50"
       then Some {| wall := 50000000; utcoffset := None |}
  else None.

Definition sample_parsedate (s : string) : option datetime :=
  if String.eqb s "Thu, 01 Jan 1970 00:00:50 +0000" then Some (at_utc 50)
  else if String.eqb s "Thu, 01 Jan 1970 00:01:40 -0000"
       then Some {| wall := 100000000; utcoffset := None |}
  else if String.eqb s "Thu, 01 Jan 1970 01:01:10 +0100"
       then Some {| wall := 3670000000; utcoffset := Some 3600000000 |}
  else None.

Definition sample_runtime : PyRuntime :=
  {| py_int := decimal;
     dedent := fun s => s;
     fromisoformat := sample_fromisoformat;
     parsedate_to_datetime := sample_parsedate;
     more_nested_calls := 969 |}.

(** ** Vocabulary for the rate-limited client *)

(** A 429 that carries a [Retry-After] header. *)
Definition rate_limited (header : string) : response :=
  {| status_code := 429; retry_after := Some header; json_body := None |}.

(** A 200 with a JSON payload. *)
Definition ok_with (payload : json) : response :=
  {| status_code := 200; retry_after := None; json_body := Some payload |}.

(** A world in which only Docker Hub has something to say, at Unix time
    [now] (microseconds). *)
Definition docker_at (now : Z) (script : list reply) : world :=
  {| docker_script := script; quay_script := []; skopeo_script := [];
     clock := now; sent := []; slept := []; spawned := [] |}.

(** Time that passed between two worlds, in microseconds. *)
Definition elapsed (w w' : world) : Z := clock w' - clock w.


(** "Approximately two seconds": within a second of two seconds. *)
Definition about_two_seconds (d : Z) : Prop := 1000000 <= d <= 3000000.

(** The rate-limit property as the specification words it: one 429 with
    [Retry-After: 2], then a 200; the client waits about two seconds and
    returns the 200. *)
Definition retry_after_2_waits_2_seconds `{PyRuntime} : Prop :=
  forall now rq payload,
    let w := docker_at now [ Response (rate_limited "2");
                             Response (ok_with payload) ] in
    fst (docker_request rq w) = Ok (ok_with payload) /\
    about_two_seconds (elapsed w (snd (docker_request rq w))).


(** A 503 without a body. *)
Definition unavailable : response :=
  {| status_code := 503; retry_after := None; json_body := None |}.

Definition sample_request : request :=
  mkRequest GET "namespaces/library/repositories/nginx" [] None.

(** Two 429s in a row, then a 503, at Unix time 1 700 000 000. *)
Definition twice_limited : world :=
  docker_at 1700000000000000
            [ Response (rate_limited "1700000003");
              Response (rate_limited "1700000005");
              Response unavailable ].

(** ** Vocabulary for the tag listings *)

(** The tag map built from a sequence of (name, timestamp) items: each item
    is assigned in turn, so a later item of the same name overwrites. *)
Definition assign (tags : dict datetime) (item : string * datetime)
  : dict datetime :=
  dict_set (fst item) (snd item) tags.

Definition dict_of (items : list (string * datetime)) : dict datetime :=
  fold_left assign items [].

(** The last timestamp a sequence of items gives to a name. *)
Definition last_of (name : string) (items : list (string * datetime))
  : option datetime :=
  dict_get name (rev items).

(** One item of Docker Hub's [results]: an object with a string [name] and
    a [last_updated] that [datetime.fromisoformat] reads as [d]. *)
Definition is_docker_result `{PyRuntime} (j : json) (item : string * datetime)
  : Prop :=
  exists fields last_updated,
    j = JObj fields /\
    lookup "last_updated" fields = Some (JStr last_updated) /\
    fromisoformat last_updated = Some (snd item) /\
    lookup "name" fields = Some (JStr (fst item)).

(** A page of Docker Hub: a 2xx response whose body is an object with a
    [results] array holding [items]; [next] is what the body has under the
    key [next] ([None]: the key is absent). *)
Definition is_docker_page `{PyRuntime} (r : response)
  (items : list (string * datetime)) (next : option json) : Prop :=
  is_success r = true /\
  exists fields results,
    json_body r = Some (JObj fields) /\
    lookup "results" fields = Some (JArr results) /\
    Forall2 is_docker_result results items /\
    lookup "next" fields = next.

(** A finite chain of pages linked by next-URL cursors.  [exhausted] says
    which [next] ends the chain; [urls] are the cursors in between. *)
Inductive docker_chain `{PyRuntime} (exhausted : option json -> Prop)
  : list response -> list (list (string * datetime)) -> list string -> Prop :=
| chain_end r items next :
    is_docker_page r items next ->
    exhausted next ->
    docker_chain exhausted [r] [items] []
| chain_link r items url rs pages urls :
    is_docker_page r items (Some (JStr url)) ->
    url <> EmptyString ->
    docker_chain exhausted rs pages urls ->
    docker_chain exhausted (r :: rs) (items :: pages) (url :: urls).

(** The two readings of "no next page". *)
Definition next_is_null (next : option json) : Prop := next = Some JNull.

Definition next_is_null_or_absent (next : option json) : Prop :=
  next = Some JNull \/ next = None.

(** Pagination completeness as the specification words it: the chain may
    end in a null or in an absent [next]. *)
Definition docker_listing_complete `{PyRuntime}
  (exhausted : option json -> Prop) : Prop :=
  forall repo rs pages urls rest w,
    docker_script w = map Response rs ++ rest ->
    docker_chain exhausted rs pages urls ->
    fst (get_tags_docker repo w) = Ok (dict_of (concat pages)).

Definition docker_get_request (url : string) : client * request :=
  (Docker, mkRequest GET url [] None).

(** [d] with UTC assumed when it has no zone. *)
Definition assume_utc (d : datetime) : datetime :=
  match utcoffset d with
  | None => replace_tzinfo d UTC
  | Some _ => d
  end.




Definition quay_tags_request (repo : string) (page : Z) : client * request :=
  (Quay, mkRequest GET ("repository/lib/" +++ repo +++ "/tag/")
                   (quay_tags_params page) None).


(** Two pages of tags of Docker Hub; [1.0] comes back on the second page
    with a later timestamp. *)
Definition docker_result (name last_updated : string) : json :=
  JObj [ ("name", JStr name); ("last_updated", JStr last_updated) ].

Definition second_page_url : string :=
  "https://hub.docker.com/v2/namespaces/library/repositories/nginx/tags?page=2&page_size=100".

Definition docker_page_1 : response :=
  ok_with (JObj [ ("count", JNum 3);
                  ("next", JStr second_page_url);
                  ("previous", JNull);
                  ("results",
                   JArr [ docker_result "latest" "1970-01-01T00:01:40+00:00";
                          docker_result "1.0" "1970-01-01T00:00:50+00:00" ]) ]).

Definition docker_page_2 : response :=
  ok_with (JObj [ ("count", JNum 3);
                  ("next", JNull);
                  ("previous", JNull);
                  ("results",
                   JArr [ docker_result "1.0" "1970-01-01T00:01:10+00:00" ]) ]).

(** A last page that has no [next] key at all. *)
Definition docker_page_without_next : response :=
  ok_with (JObj [ ("results", JArr []) ]).

(** Two pages of tags of Quay; the second has a timestamp without a zone
    and one in another zone. *)
Definition quay_tag (name last_modified : string) : json :=
  JObj [ ("name", JStr name);
         ("reversion", JBool false);
         ("last_modified", JStr last_modified) ].

Definition quay_page_1 : response :=
  ok_with (JObj [ ("tags",
                   JArr [ quay_tag "1.0" "Thu, 01 Jan 1970 00:00:50 +0000" ]);
                  ("page", JNum 1);
                  ("has_additional", JBool true) ]).

Definition quay_page_2 : response :=
  ok_with (JObj [ ("tags",
                   JArr [ quay_tag "latest" "Thu, 01 Jan 1970 00:01:40 -0000";
                          quay_tag "edge" "Thu, 01 Jan 1970 01:01:10 +0100" ]);
                  ("page", JNum 2);
                  ("has_additional", JBool false) ]).

Definition quay_at (now : Z) (script : list reply) : world :=
  {| docker_script := []; quay_script := script; skopeo_script := [];
     clock := now; sent := []; slept := []; spawned := [] |}.


(** ** Vocabulary for the repository metadata *)

(** The three requests [ensure_quay_repo] can send to Quay. *)
Definition fetch_request (repo : string) : client * request :=
  (Quay, mkRequest GET ("repository/lib/" +++ repo) [] None).

Definition create_request (repo description : string) : client * request :=
  (Quay, mkRequest POST "repository" [] (Some (create_body repo description))).


(** Docker Hub has no logo for the repository and describes it; Quay does
    not know the repository and accepts its creation. *)
Definition not_found : response :=
  {| status_code := 404; retry_after := None; json_body := None |}.

Definition created : response :=
  {| status_code := 201; retry_after := None; json_body := None |}.

Definition sample_info : response :=
  ok_with (JObj [ ("name", JStr "nginx");
                  ("description", JStr "Official build of Nginx.");
                  ("full_description", JStr "# Quick reference") ]).

Definition sample_description : string :=
  preamble_text EmptyString "Official build of Nginx." "nginx" +++ "# Quick reference".

Definition unknown_to_quay : world :=
  {| docker_script := [Response not_found; Response sample_info];
     quay_script := [Response not_found; Response created];
     skopeo_script := [];
     clock := 1700000000000000; sent := []; slept := []; spawned := [] |}.

(** ** Further vocabulary *)

(** Time spent in a sequence of sleeps: a delay that is zero or negative
    costs nothing. *)
Fixpoint waited (delays : list Z) : Z :=
  match delays with
  | [] => 0
  | d :: rest => Z.max 0 d + waited rest
  end.

(** The requests of a log that went to Quay. *)
Definition to_quay (log : list (client * request)) : list (client * request) :=
  filter (fun entry => match fst entry with Quay => true | Docker => false end)
         log.

(** The requests of a log that went to Docker Hub. *)
Definition to_docker (log : list (client * request))
  : list (client * request) :=
  filter (fun entry => match fst entry with Docker => true | Quay => false end)
         log.

(** A 429 without the header, and one whose header is an HTTP date. *)
Definition limited_without_header : response :=
  {| status_code := 429; retry_after := None; json_body := None |}.

Definition limited_until_date : response :=
  rate_limited "Wed, 21 Oct 2026 07:28:00 GMT".




(** ** Frames

    [keeps R m]: whatever the outcome of [m], the worlds before and after
    are related by [R].  [yields Q m]: a value [m] returns satisfies [Q]. *)

Definition keeps {A} (R : world -> world -> Prop) (m : M A) : Prop :=
  forall w, R w (snd (m w)).

Definition yields {A} (Q : A -> Prop) (m : M A) : Prop :=
  forall w a, fst (m w) = Ok a -> Q a.

Definition is_docker_get (entry : client * request) : Prop :=
  exists url, entry = docker_get_request url.

(** Between two worlds only GET requests to Docker Hub were sent (and the
    waits they asked for were made): Quay and the copy tool are as they
    were, and the clock has not gone back. *)
Definition only_docker_gets (w w' : world) : Prop :=
  (exists log, sent w' = sent w ++ log /\ Forall is_docker_get log) /\
  clock w <= clock w' /\
  quay_script w' = quay_script w /\
  skopeo_script w' = skopeo_script w /\
  spawned w' = spawned w.

(** Between two worlds only Quay was talked to: Docker Hub, the clock and
    the copy tool are as they were. *)
Definition only_quay (w w' : world) : Prop :=
  (exists log, sent w' = sent w ++ log /\ Forall (fun e => fst e = Quay) log) /\
  docker_script w' = docker_script w /\
  clock w' = clock w /\
  slept w' = slept w /\
  skopeo_script w' = skopeo_script w /\
  spawned w' = spawned w.

(** A tag map whose names are distinct and whose timestamps all carry a
    zone. *)
Definition distinct_names (tags : dict datetime) : Prop :=
  NoDup (dict_keys tags).

Definition all_aware (tags : dict datetime) : Prop :=
  forall name d, In (name, d) tags -> is_aware d = true.




(** A 500 without a body. *)
Definition server_error : response :=
  {| status_code := 500; retry_after := None; json_body := None |}.

Definition sound_tags (tags : dict datetime) : Prop :=
  distinct_names tags /\ all_aware tags.

(** Quay answers the first page of tags with a 429 of its own. *)
Definition quay_limited : world :=
  quay_at 1700000000000000
          [ Response (rate_limited "1700000003"); Response quay_page_2 ].

(** The logo of a repository, as line 66 writes it. *)
Definition logo_url (repo : string) : string :=
  "https://hub.docker.com/api/media/repos_logo/v1/library%2F" +++ repo.

Definition logo_img (repo : string) : string :=
  "<img src=" +++ dquote +++ logo_url repo +++ dquote
  +++ " height=" +++ dquote +++ "34" +++ dquote +++ "/>".

(** Docker Hub describes a repository but has no long description. *)
Definition info_without_full : response :=
  ok_with (JObj [ ("name", JStr "nginx");
                  ("description", JStr "Official build of Nginx.");
                  ("full_description", JNull) ]).

Definition docker_then_quay (docker quay : list reply) : world :=
  {| docker_script := docker; quay_script := quay; skopeo_script := [];
     clock := 1700000000000000; sent := []; slept := []; spawned := [] |}.

(** Quay refuses the creation. *)
Definition forbidden : response :=
  {| status_code := 403; retry_after := None; json_body := None |}.

(** A source map with a timestamp that has no zone. *)
Definition naive_50 : datetime := {| wall := 50000000; utcoffset := None |}.

(** * Properties *)

(** ** Generalities *)

Lemma append_inj (p a b : string) : p +++ a = p +++ b -> a = b.
Proof.
  induction p as [|c p IH]; simpl; intros E; [exact E|].
  injection E as E. auto.
Qed.

Lemma skopeo_args_inj repo auth_file t1 t2 :
  skopeo_args repo auth_file t1 = skopeo_args repo auth_file t2 -> t1 = t2.
Proof.
  unfold skopeo_args. intros E.
  assert (H : nth 6 (skopeo_args repo auth_file t1) EmptyString =
              nth 6 (skopeo_args repo auth_file t2) EmptyString)
    by (unfold skopeo_args; rewrite E; reflexivity).
  cbn [nth skopeo_args] in H.
  apply append_inj in H. apply append_inj in H.
  apply (append_inj ":") in H. exact H.
Qed.

Lemma skipn_length_app {A} (l r : list A) : skipn (length l) (l ++ r) = r.
Proof. induction l; simpl; auto. Qed.

Lemma copies_app w w' runs :
  spawned w' = spawned w ++ runs -> copies w w' = runs.
Proof. unfold copies. intros ->. apply skipn_length_app. Qed.

Lemma requests_app w w' rs :
  sent w' = sent w ++ rs -> requests w w' = rs.
Proof. unfold requests. intros ->. apply skipn_length_app. Qed.

Lemma sleeps_app w w' ds :
  slept w' = slept w ++ ds -> sleeps w w' = ds.
Proof. unfold sleeps. intros ->. apply skipn_length_app. Qed.

Lemma dt_ge_true_not_lt a b :
  dt_ge a b = Ok true -> dt_compare a b <> Some Lt /\ dt_compare a b <> None.
Proof.
  unfold dt_ge. destruct (dt_compare a b) as [[]|]; intros E;
    split; congruence.
Qed.

Lemma dt_ge_false_lt a b :
  dt_ge a b = Ok false <-> dt_compare a b = Some Lt.
Proof.
  unfold dt_ge. destruct (dt_compare a b) as [[]|]; split; congruence.
Qed.

(** ** The decision loop of [sync] *)

Section Sync.

Variables repo auth_file : string.
Variable tags_quay : dict datetime.

(** One turn of the loop, when the tag is copied. *)
Lemma subprocess_run_spec args w o w' :
  subprocess_run args w = (o, w') ->
  spawned w' = spawned w ++ [args] /\ only_spawns w w' /\
  skopeo_script w' = tl (skopeo_script w).
Proof.
  unfold subprocess_run, only_spawns.
  destruct (skopeo_script w) as [|[code|] rest]; [| destruct (code =? 0) |];
    intros E; inversion E; subst; simpl; auto 10.
Qed.

(** Whatever the outcome, every invocation is the copy of a stale tag of
    the source map, and nothing else happens. *)
Lemma sync_trace tags_docker : forall w o w',
  sync repo auth_file tags_docker tags_quay w = (o, w') ->
  exists tags,
    spawned w' = spawned w ++ map (skopeo_args repo auth_file) tags /\
    only_spawns w w' /\
    forall tag, In tag tags ->
      exists source_time,
        In (tag, source_time) tags_docker /\ stale tags_quay tag source_time.
Proof.
  induction tags_docker as [|[tag src] rest IH]; intros w o w' E.
  - inversion E; subst. exists []. simpl. rewrite app_nil_r.
    unfold only_spawns. intuition.
  - simpl in E. unfold bind in E.
    destruct (dict_get tag tags_quay) as [q|] eqn:G.
    + unfold lift in E. destruct (dt_ge q src) as [[|]| |] eqn:C.
      * apply IH in E as (tags & S1 & S2 & S3).
        exists tags. repeat split; try apply S2; auto.
        intros t Ht. destruct (S3 t Ht) as (s & I & St). exists s. simpl; auto.
      * destruct (subprocess_run (skopeo_args repo auth_file tag) w)
          as [[[]| |] w1] eqn:R; apply subprocess_run_spec in R as (R1 & R2 & _).
        -- apply IH in E as (tags & S1 & S2 & S3).
           exists (tag :: tags). simpl. rewrite S1, R1, <- app_assoc. simpl.
           split; [reflexivity|]. split.
           { unfold only_spawns in *. intuition congruence. }
           intros t [<-|Ht].
           ++ exists src. split; [left; reflexivity|].
              right. exists q. split; [exact G|]. now apply dt_ge_false_lt.
           ++ destruct (S3 t Ht) as (s & I & St). exists s. simpl; auto.
        -- inversion E; subst. exists [tag]. simpl. repeat split; try apply R2; auto.
           intros t [<-|[]]. exists src. split; [left; reflexivity|].
           right. exists q. split; [exact G|]. now apply dt_ge_false_lt.
        -- inversion E; subst. exists [tag]. simpl. repeat split; try apply R2; auto.
           intros t [<-|[]]. exists src. split; [left; reflexivity|].
           right. exists q. split; [exact G|]. now apply dt_ge_false_lt.
      * inversion E; subst. exists []. simpl. rewrite app_nil_r.
        unfold only_spawns. intuition.
      * inversion E; subst. exists []. simpl. rewrite app_nil_r.
        unfold only_spawns. intuition.
    + unfold ret in E.
      destruct (subprocess_run (skopeo_args repo auth_file tag) w)
        as [[[]| |] w1] eqn:R; apply subprocess_run_spec in R as (R1 & R2 & _).
      * apply IH in E as (tags & S1 & S2 & S3).
        exists (tag :: tags). simpl. rewrite S1, R1, <- app_assoc. simpl.
        split; [reflexivity|]. split.
        { unfold only_spawns in *. intuition congruence. }
        intros t [<-|Ht].
        -- exists src. split; [left; reflexivity|]. left. exact G.
        -- destruct (S3 t Ht) as (s & I & St). exists s. simpl; auto.
      * inversion E; subst. exists [tag]. simpl. repeat split; try apply R2; auto.
        intros t [<-|[]]. exists src. split; [left; reflexivity|]. left; exact G.
      * inversion E; subst. exists [tag]. simpl. repeat split; try apply R2; auto.
        intros t [<-|[]]. exists src. split; [left; reflexivity|]. left; exact G.
Qed.

(** A run that completes has copied exactly the stale items, in the order
    of the source map, and every comparison it made was defined. *)
Lemma sync_ok_exact tags_docker : forall w w',
  sync repo auth_file tags_docker tags_quay w = (Ok tt, w') ->
  spawned w' =
    spawned w ++ map (skopeo_args repo auth_file) (map fst (filter (needs_copy tags_quay) tags_docker)).
Proof.
  induction tags_docker as [|[tag src] rest IH]; intros w w' E.
  - inversion E; subst. simpl. now rewrite app_nil_r.
  - simpl in E. unfold bind in E. unfold needs_copy at 1. simpl.
    destruct (dict_get tag tags_quay) as [q|] eqn:G.
    + unfold lift, dt_ge in E.
      destruct (dt_compare q src) as [[]|] eqn:C; try discriminate;
        try (now apply IH in E).
      destruct (subprocess_run (skopeo_args repo auth_file tag) w)
        as [[[]| |] w1] eqn:R; try discriminate.
      apply subprocess_run_spec in R as (R1 & _).
      apply IH in E. rewrite E, R1, <- app_assoc. reflexivity.
    + unfold ret in E.
      destruct (subprocess_run (skopeo_args repo auth_file tag) w)
        as [[[]| |] w1] eqn:R; try discriminate.
      apply subprocess_run_spec in R as (R1 & _).
      apply IH in E. rewrite E, R1, <- app_assoc. reflexivity.
Qed.

Lemma needs_copy_stale tag src :
  needs_copy tags_quay (tag, src) = true <-> stale tags_quay tag src.
Proof.
  unfold needs_copy, stale. simpl.
  destruct (dict_get tag tags_quay) as [q|].
  - split.
    + destruct (dt_compare q src) as [[]|] eqn:C; try discriminate.
      intros _. right. exists q. auto.
    + intros [H|(q' & H1 & H2)]; [discriminate|].
      injection H1 as <-. now rewrite H2.
  - split; auto.
Qed.

End Sync.

Lemma nodup_keys_same_value {V} (d : dict V) k v1 v2 :
  NoDup (dict_keys d) -> In (k, v1) d -> In (k, v2) d -> v1 = v2.
Proof.
  unfold dict_keys. induction d as [|[k' v'] d IH]; simpl; intros N I1 I2.
  - contradiction.
  - inversion N as [|? ? Hn N']; subst.
    destruct I1 as [E1|I1], I2 as [E2|I2].
    + congruence.
    + injection E1 as -> ->. exfalso. apply Hn.
      change k with (fst (k, v2)). now apply in_map.
    + injection E2 as -> ->. exfalso. apply Hn.
      change k with (fst (k, v1)). now apply in_map.
    + auto.
Qed.

(** C1.  Staleness rule: in a run of [sync] that completes, a tag of the
    source tag map is copied if and only if it is absent from the
    destination tag map or its destination timestamp is strictly older than
    its source timestamp; a tag whose destination timestamp is equal or
    newer is skipped. *)
Theorem sync_copies_iff_stale repo auth_file tags_docker tags_quay w w' :
  NoDup (dict_keys tags_docker) ->
  sync repo auth_file tags_docker tags_quay w = (Ok tt, w') ->
  forall tag source_time,
    In (tag, source_time) tags_docker ->
    (In (skopeo_args repo auth_file tag) (copies w w') <->
     stale tags_quay tag source_time) /\
    (forall dest_time,
        dict_get tag tags_quay = Some dest_time ->
        dt_ge dest_time source_time = Ok true ->
        ~ In (skopeo_args repo auth_file tag) (copies w w')).
Proof.
  intros N E tag src I.
  apply sync_ok_exact in E.
  rewrite (copies_app _ _ _ E).
  assert (Iff : In (skopeo_args repo auth_file tag)
                  (map (skopeo_args repo auth_file)
                       (map fst (filter (needs_copy tags_quay) tags_docker)))
                <-> stale tags_quay tag src).
  { split.
    - intros H. apply in_map_iff in H as (t & Ht & H).
      apply skopeo_args_inj in Ht. subst t.
      apply in_map_iff in H as ([t s] & Ht & H). simpl in Ht. subst t.
      apply filter_In in H as (H & C).
      rewrite (nodup_keys_same_value _ _ _ _ N I H).
      now apply needs_copy_stale.
    - intros S. apply in_map. apply in_map_iff. exists (tag, src).
      split; [reflexivity|]. apply filter_In. split; [exact I|].
      now apply needs_copy_stale. }
  split; [exact Iff|].
  intros q G C H. apply Iff in H.
  apply dt_ge_true_not_lt in C as (C & _).
  destruct H as [H|(q' & H1 & H2)]; congruence.
Qed.

(** The end-to-end scenario of the specification: one copy, for [latest]. *)
Example sync_sample :
  sync "nginx" "/tmp/auth.json" sample_source sample_dest
       (with_skopeo [Exited 0] quiet)
  = (Ok tt,
     {| docker_script := []; quay_script := []; skopeo_script := [];
        clock := 0; sent := []; slept := [];
        spawned := [skopeo_args "nginx" "/tmp/auth.json" "latest"] |}).
Proof. reflexivity. Qed.

Lemma sync_copies_iff_stale_witness :
  (In (skopeo_args "nginx" "/tmp/auth.json" "latest")
      (copies (with_skopeo [Exited 0] quiet)
              (snd (sync "nginx" "/tmp/auth.json" sample_source sample_dest
                         (with_skopeo [Exited 0] quiet)))) <->
   stale sample_dest "latest" (at_utc 100)) /\
  (forall dest_time,
      dict_get "latest" sample_dest = Some dest_time ->
      dt_ge dest_time (at_utc 100) = Ok true ->
      ~ In (skopeo_args "nginx" "/tmp/auth.json" "latest")
           (copies (with_skopeo [Exited 0] quiet)
                   (snd (sync "nginx" "/tmp/auth.json" sample_source
                              sample_dest (with_skopeo [Exited 0] quiet))))).
Proof.
  apply (sync_copies_iff_stale "nginx" "/tmp/auth.json" sample_source
           sample_dest (with_skopeo [Exited 0] quiet)).
  - unfold dict_keys, sample_source. simpl.
    repeat constructor; simpl; intuition discriminate.
  - reflexivity.
  - simpl. left. reflexivity.
Defined.

(** C7.  Idempotence: when the destination tag map gives every tag of the
    source tag map a timestamp that is greater than or equal to its source
    timestamp, [sync] completes without a single copy invocation (the world
    is left as it was). *)
Theorem sync_up_to_date_no_copy repo auth_file tags_docker tags_quay w :
  (forall tag source_time,
      In (tag, source_time) tags_docker ->
      exists dest_time,
        dict_get tag tags_quay = Some dest_time /\
        dt_ge dest_time source_time = Ok true) ->
  sync repo auth_file tags_docker tags_quay w = (Ok tt, w) /\
  copies w (snd (sync repo auth_file tags_docker tags_quay w)) = [].
Proof.
  intros H.
  assert (E : sync repo auth_file tags_docker tags_quay w = (Ok tt, w)).
  { induction tags_docker as [|[tag src] rest IH]; [reflexivity|].
    simpl. unfold bind.
    destruct (H tag src (or_introl eq_refl)) as (q & G & C).
    rewrite G. unfold lift. rewrite C.
    apply IH. intros t s I. apply H. now right. }
  split; [exact E|].
  rewrite E. simpl. apply copies_app. now rewrite app_nil_r.
Qed.

Lemma sync_up_to_date_no_copy_witness :
  sync "nginx" "/tmp/auth.json" sample_dest sample_dest quiet = (Ok tt, quiet) /\
  copies quiet (snd (sync "nginx" "/tmp/auth.json" sample_dest sample_dest quiet))
  = [].
Proof.
  apply (sync_up_to_date_no_copy "nginx" "/tmp/auth.json"
           sample_dest sample_dest quiet).
  intros tag src [E|[]]. injection E as <- <-.
  exists (at_utc 50). split; reflexivity.
Defined.

(** [sync] over a concatenation runs the first part, then the second. *)
Lemma sync_app repo auth_file tags_quay pre post w :
  sync repo auth_file (pre ++ post) tags_quay w =
  (sync repo auth_file pre tags_quay ;;;
   sync repo auth_file post tags_quay) w.
Proof.
  revert w. induction pre as [|[tag src] pre IH]; intros w; [reflexivity|].
  simpl. unfold bind.
  destruct (dict_get tag tags_quay) as [q|].
  - unfold lift. destruct (dt_ge q src) as [[|]| |]; try reflexivity.
    + apply IH.
    + destruct (subprocess_run _ w) as [[[]| |] w1]; try reflexivity. apply IH.
  - unfold ret.
    destruct (subprocess_run _ w) as [[[]| |] w1]; try reflexivity. apply IH.
Qed.

(** C8.  When the copy of a stale tag exits non-zero, [sync] raises
    [CalledProcessError] at once: the failed invocation is the last entry of
    the log (it is not tried again) and the answers of the copy tool that
    follow are left unread (no tag after it is processed). *)
Theorem sync_copy_failure_propagates
  repo auth_file pre tag source_time post tags_quay w w1 code rest :
  sync repo auth_file pre tags_quay w = (Ok tt, w1) ->
  stale tags_quay tag source_time ->
  skopeo_script w1 = Exited code :: rest ->
  code <> 0 ->
  exists w2,
    sync repo auth_file (pre ++ (tag, source_time) :: post) tags_quay w
    = (Raise (CalledProcessError code), w2) /\
    spawned w2 = spawned w1 ++ [skopeo_args repo auth_file tag] /\
    skopeo_script w2 = rest /\
    only_spawns w w2.
Proof.
  intros Epre S Hs Hc.
  pose proof (sync_trace repo auth_file tags_quay pre w _ _ Epre)
    as (_ & _ & O1 & _).
  rewrite sync_app. unfold bind at 1. rewrite Epre.
  apply needs_copy_stale in S. unfold needs_copy in S. simpl in S.
  simpl. unfold bind.
  assert (R : subprocess_run (skopeo_args repo auth_file tag) w1 =
              (Raise (CalledProcessError code),
               {| docker_script := docker_script w1;
                  quay_script := quay_script w1;
                  skopeo_script := rest;
                  clock := clock w1; sent := sent w1; slept := slept w1;
                  spawned := spawned w1 ++ [skopeo_args repo auth_file tag] |})).
  { unfold subprocess_run. rewrite Hs.
    destruct (code =? 0) eqn:Z; [apply Z.eqb_eq in Z; contradiction|].
    reflexivity. }
  destruct (dict_get tag tags_quay) as [q|].
  - unfold lift, dt_ge. destruct (dt_compare q source_time) as [[]|];
      try discriminate.
    rewrite R. eexists. split; [reflexivity|]. simpl.
    unfold only_spawns in *. simpl. intuition.
  - unfold ret. rewrite R. eexists. split; [reflexivity|]. simpl.
    unfold only_spawns in *. simpl. intuition.
Qed.

Lemma sync_copy_failure_propagates_witness :
  exists w2,
    sync "nginx" "/tmp/auth.json"
         ([("1.0", at_utc 50)] ++ ("latest", at_utc 100) :: [("edge", at_utc 70)])
         sample_dest (with_skopeo [Exited 1; Exited 0] quiet)
    = (Raise (CalledProcessError 1), w2) /\
    spawned w2 = spawned (with_skopeo [Exited 1; Exited 0] quiet)
                 ++ [skopeo_args "nginx" "/tmp/auth.json" "latest"] /\
    skopeo_script w2 = [Exited 0] /\
    only_spawns (with_skopeo [Exited 1; Exited 0] quiet) w2.
Proof.
  apply (sync_copy_failure_propagates "nginx" "/tmp/auth.json"
           [("1.0", at_utc 50)] "latest" (at_utc 100) [("edge", at_utc 70)]
           sample_dest (with_skopeo [Exited 1; Exited 0] quiet)
           (with_skopeo [Exited 1; Exited 0] quiet) 1 [Exited 0]).
  - reflexivity.
  - left. reflexivity.
  - reflexivity.
  - lia.
Defined.

(** C9.  One-way, additive mirroring: whatever its outcome, [sync] does
    nothing but run copies, every copy is that of a tag of the source tag
    map, no request (so no delete) is sent to either registry, and a tag
    that is only in the destination tag map is never the subject of an
    invocation. *)
Theorem sync_only_copies_source_tags repo auth_file tags_docker tags_quay w :
  let w' := snd (sync repo auth_file tags_docker tags_quay w) in
  (forall args,
      In args (copies w w') ->
      exists tag source_time,
        In (tag, source_time) tags_docker /\
        args = skopeo_args repo auth_file tag) /\
  requests w w' = [] /\
  (forall tag dest_time,
      dict_get tag tags_quay = Some dest_time ->
      ~ In tag (dict_keys tags_docker) ->
      ~ In (skopeo_args repo auth_file tag) (copies w w')).
Proof.
  intros w'. subst w'.
  destruct (sync repo auth_file tags_docker tags_quay w) as [o w'] eqn:E.
  apply sync_trace in E as (tags & S1 & (_ & _ & _ & S2 & _) & S3).
  simpl. rewrite (copies_app _ _ _ S1).
  assert (Src : forall args,
             In args (map (skopeo_args repo auth_file) tags) ->
             exists tag source_time,
               In (tag, source_time) tags_docker /\
               args = skopeo_args repo auth_file tag).
  { intros args H. apply in_map_iff in H as (t & <- & H).
    destruct (S3 t H) as (s & I & _). now exists t, s. }
  split; [exact Src|]. split.
  - apply requests_app. now rewrite app_nil_r.
  - intros tag q _ N H. apply Src in H as (t & s & I & Eq).
    apply skopeo_args_inj in Eq. subst t. apply N.
    unfold dict_keys. change tag with (fst (tag, s)). now apply in_map.
Qed.

Lemma sync_only_copies_source_tags_witness :
  ~ In (skopeo_args "nginx" "/tmp/auth.json" "old")
       (copies (with_skopeo [Exited 0] quiet)
               (snd (sync "nginx" "/tmp/auth.json" sample_source
                          (("old", at_utc 10) :: sample_dest)
                          (with_skopeo [Exited 0] quiet)))).
Proof.
  apply (proj2 (proj2 (sync_only_copies_source_tags "nginx" "/tmp/auth.json"
           sample_source (("old", at_utc 10) :: sample_dest)
           (with_skopeo [Exited 0] quiet)))
         "old" (at_utc 10)).
  - reflexivity.
  - unfold dict_keys, sample_source. simpl. intuition discriminate.
Defined.

(** ** The rate-limited client *)

Section RateLimit.

Context `{PyRuntime}.

(** One call, as lines 37-41 read. *)
Lemma request_unfold calls rq :
  DockerClient_request calls rq =
  (r <- send Docker rq ;;
   if negb (status_code r =? 429) then ret r
   else
     header <- or_raise (KeyError "Retry-After") (retry_after r) ;;
     seconds <- or_raise ValueError (py_int header) ;;
     now <- time_time ;;
     asyncio_sleep (seconds * 1000000 - now) ;;;
     match calls with
     | O => raise RecursionError
     | S calls' => DockerClient_request calls' rq
     end).
Proof. destruct calls; reflexivity. Qed.

(** A response that is not a 429 is returned as it is. *)
Lemma request_step_final calls rq w r rest :
  docker_script w = Response r :: rest ->
  status_code r <> 429 ->
  DockerClient_request calls rq w = (Ok r, answered Docker rq rest w).
Proof.
  intros S N. rewrite request_unfold. unfold bind, send. cbn [script_of].
  rewrite S.
  destruct (status_code r =? 429) eqn:E; [apply Z.eqb_eq in E; contradiction|].
  reflexivity.
Qed.

(** A 429 with a header [int] accepts, in a call that can call itself:
    sleep, then call again. *)
Lemma request_step_429 calls rq w r rest header seconds :
  docker_script w = Response r :: rest ->
  status_code r = 429 ->
  retry_after r = Some header ->
  py_int header = Some seconds ->
  DockerClient_request (S calls) rq w =
  DockerClient_request calls rq
    (snd (asyncio_sleep (seconds * 1000000 - clock w)
                        (answered Docker rq rest w))).
Proof.
  intros S E Hh Hv. rewrite request_unfold. unfold bind, send.
  cbn [script_of]. rewrite S, E. cbn [Z.eqb Pos.eqb negb].
  rewrite Hh. cbn [or_raise ret]. rewrite Hv. reflexivity.
Qed.

(** The same 429 in a call that cannot call itself any more: sleep, then
    [RecursionError]. *)
Lemma request_step_limit rq w r rest header seconds :
  docker_script w = Response r :: rest ->
  status_code r = 429 ->
  retry_after r = Some header ->
  py_int header = Some seconds ->
  DockerClient_request 0 rq w =
  (Raise RecursionError,
   snd (asyncio_sleep (seconds * 1000000 - clock w)
                      (answered Docker rq rest w))).
Proof.
  intros S E Hh Hv. rewrite request_unfold. unfold bind, send.
  cbn [script_of]. rewrite S, E. cbn [Z.eqb Pos.eqb negb].
  rewrite Hh. cbn [or_raise ret]. rewrite Hv. reflexivity.
Qed.




End RateLimit.




(** The two waits of the example: three seconds, then two more. *)
Example twice_limited_sleeps :
  sleeps twice_limited
         (snd (@docker_request sample_runtime sample_request twice_limited))
  = [3000000; 2000000] /\
  elapsed twice_limited
          (snd (@docker_request sample_runtime sample_request twice_limited))
  = 5000000.
Proof. split; reflexivity. Qed.



(** C2, as the specification words it, fails: at Unix time 1 700 000 000 a
    [Retry-After: 2] lies in the past, and the client does not wait at
    all. *)
Lemma retry_after_2_no_wait :
  ~ @retry_after_2_waits_2_seconds sample_runtime.
Proof.
  intros C.
  destruct (C 1700000000000000 sample_request (JStr "payload")) as (_ & A).
  vm_compute in A. destruct A as (A & _). apply A. reflexivity.
Qed.

(** C2, amended.  After one 429 with [Retry-After: 2] and a 200, the client
    returns the 200 and the 429 never reaches the caller; the header is a
    Unix time, so the wait lasts until time 2: [2 - now] seconds when that
    is positive, and nothing once the clock is at or past 2. *)
Theorem retry_after_2_waits_until_time_2 `{PyRuntime} now rq payload :
  py_int "2" = Some 2 ->
  let w := docker_at now [ Response (rate_limited "2");
                           Response (ok_with payload) ] in
  fst (docker_request rq w) = Ok (ok_with payload) /\
  requests w (snd (docker_request rq w)) = [(Docker, rq); (Docker, rq)] /\
  sleeps w (snd (docker_request rq w)) = [2000000 - now] /\
  elapsed w (snd (docker_request rq w)) = Z.max 0 (2000000 - now) /\
  (2000000 <= now -> elapsed w (snd (docker_request rq w)) = 0).
Proof.
  intros P w. subst w.
  unfold docker_request, nested_calls.
  rewrite (request_step_429 more_nested_calls rq
             (docker_at now [ Response (rate_limited "2");
                              Response (ok_with payload) ])
             (rate_limited "2")
             [Response (ok_with payload)] "2" 2
             eq_refl eq_refl eq_refl P).
  erewrite (request_step_final more_nested_calls rq _ (ok_with payload) []);
    [| reflexivity | simpl; lia].
  unfold elapsed, sleeps, requests, answered, asyncio_sleep, docker_at.
  cbn [fst snd clock sent slept length skipn app].
  change (2 * 1000000) with 2000000.
  repeat split.
  - destruct (2000000 - now <=? 0) eqn:D;
      [apply Z.leb_le in D | apply Z.leb_gt in D]; lia.
  - intros L. destruct (2000000 - now <=? 0) eqn:D;
      [apply Z.leb_le in D | apply Z.leb_gt in D]; lia.
Qed.

Lemma retry_after_2_waits_until_time_2_witness :
  let w := docker_at 1700000000000000
             [ Response (rate_limited "2");
               Response (ok_with (JStr "payload")) ] in
  fst (@docker_request sample_runtime sample_request w)
  = Ok (ok_with (JStr "payload")) /\
  requests w (snd (@docker_request sample_runtime sample_request w))
  = [(Docker, sample_request); (Docker, sample_request)] /\
  sleeps w (snd (@docker_request sample_runtime sample_request w))
  = [2000000 - 1700000000000000] /\
  elapsed w (snd (@docker_request sample_runtime sample_request w))
  = Z.max 0 (2000000 - 1700000000000000) /\
  (2000000 <= 1700000000000000 ->
   elapsed w (snd (@docker_request sample_runtime sample_request w)) = 0).
Proof.
  apply (@retry_after_2_waits_until_time_2 sample_runtime
           1700000000000000 sample_request (JStr "payload")).
  reflexivity.
Defined.

(** ** Dictionaries *)

Lemma dict_get_set {V} k k' (v : V) d :
  dict_get k (dict_set k' v d) =
  if String.eqb k' k then Some v else dict_get k d.
Proof.
  induction d as [|[k0 v0] d IH]; simpl.
  - reflexivity.
  - destruct (String.eqb k0 k') eqn:E0; simpl.
    + apply String.eqb_eq in E0. subst k0.
      destruct (String.eqb k' k); reflexivity.
    + destruct (String.eqb k0 k) eqn:E1.
      * apply String.eqb_eq in E1. subst k0.
        rewrite String.eqb_sym, E0. reflexivity.
      * exact IH.
Qed.

Lemma dict_get_app {V} k (a b : dict V) :
  dict_get k (a ++ b) =
  match dict_get k a with Some v => Some v | None => dict_get k b end.
Proof.
  induction a as [|[k0 v0] a IH]; simpl; [reflexivity|].
  destruct (String.eqb k0 k); auto.
Qed.

Lemma dict_get_In {V} k (v : V) d : dict_get k d = Some v -> In (k, v) d.
Proof.
  induction d as [|[k0 v0] d IH]; simpl; [discriminate|].
  destruct (String.eqb k0 k) eqn:E.
  - apply String.eqb_eq in E. subst. intros [= ->]. now left.
  - intros H. right. auto.
Qed.

(** Assigning items one after the other: a name ends with the last
    timestamp the items give it, or keeps the one it had. *)
Lemma dict_get_assigned name items : forall tags,
  dict_get name (fold_left assign items tags) =
  match last_of name items with
  | Some d => Some d
  | None => dict_get name tags
  end.
Proof.
  unfold last_of.
  induction items as [|[k d] items IH]; intros tags; simpl; [reflexivity|].
  rewrite IH, dict_get_app. unfold assign at 1. simpl.
  destruct (dict_get name (rev items)); [reflexivity|].
  rewrite dict_get_set. destruct (String.eqb k name); reflexivity.
Qed.

Lemma dict_of_last name items :
  dict_get name (dict_of items) = last_of name items.
Proof.
  unfold dict_of. rewrite dict_get_assigned. simpl.
  destruct (last_of name items); reflexivity.
Qed.


(** The keys of a dictionary built by assignments are distinct. *)
Lemma dict_set_keys {V} k (v : V) d :
  dict_keys (dict_set k v d) =
  if existsb (String.eqb k) (dict_keys d) then dict_keys d
  else dict_keys d ++ [k].
Proof.
  unfold dict_keys. induction d as [|[k0 v0] d IH]; simpl; [reflexivity|].
  rewrite (String.eqb_sym k k0).
  destruct (String.eqb k0 k) eqn:E; simpl; [reflexivity|].
  rewrite IH. destruct (existsb _ _); reflexivity.
Qed.

Lemma dict_set_NoDup {V} k (v : V) d :
  NoDup (dict_keys d) -> NoDup (dict_keys (dict_set k v d)).
Proof.
  intros N. rewrite dict_set_keys.
  destruct (existsb (String.eqb k) (dict_keys d)) eqn:E; [exact N|].
  apply NoDup_app; [exact N | repeat constructor; intros [] |].
  intros x I [Ex|[]]. subst x.
  assert (existsb (String.eqb k) (dict_keys d) = true); [|congruence].
  apply existsb_exists. exists k. split; [exact I | apply String.eqb_refl].
Qed.

Lemma dict_of_NoDup items : NoDup (dict_keys (dict_of items)).
Proof.
  unfold dict_of.
  assert (G : forall tags, NoDup (dict_keys tags) ->
            NoDup (dict_keys (fold_left assign items tags))).
  { induction items as [|x items IH]; intros tags N; simpl; [exact N|].
    apply IH. now apply dict_set_NoDup. }
  apply G. constructor.
Qed.

(** ** The source tag listing *)

Section DockerListing.

Context `{PyRuntime}.

Lemma truthy_url u : u <> EmptyString -> truthy (JStr u) = true.
Proof.
  intros N. simpl. destruct (String.eqb u EmptyString) eqn:E; [|reflexivity].
  apply String.eqb_eq in E. contradiction.
Qed.

Lemma success_not_429 r : is_success r = true -> status_code r <> 429.
Proof.
  unfold is_success. intros S. apply andb_true_iff in S as (_ & S).
  apply Z.leb_le in S. lia.
Qed.

Lemma docker_get_page u w r rest :
  docker_script w = Response r :: rest ->
  status_code r <> 429 ->
  docker_get u w = (Ok r, answered Docker (mkRequest GET u [] None) rest w).
Proof.
  intros S N. unfold docker_get, docker_request.
  now apply request_step_final.
Qed.

Lemma store_docker_results_ok results items :
  Forall2 is_docker_result results items ->
  forall tags w,
    store_docker_results results tags w = (Ok (fold_left assign items tags), w).
Proof.
  induction 1 as [|j item results items (fields & s & -> & L & P & N) _ IH];
    intros tags w; [reflexivity|].
  simpl. unfold bind. simpl. rewrite L. simpl. rewrite P. simpl.
  rewrite N. simpl. apply IH.
Qed.

Lemma get_tags_docker_loop_step fuel u tags w r rest items next :
  u <> EmptyString ->
  docker_script w = Response r :: rest ->
  is_docker_page r items (Some next) ->
  get_tags_docker_loop (S fuel) (JStr u) tags w =
  get_tags_docker_loop fuel next (fold_left assign items tags)
    (answered Docker (mkRequest GET u [] None) rest w).
Proof.
  intros N S (Su & fields & results & B & R & F & X).
  cbn [get_tags_docker_loop]. rewrite (truthy_url _ N).
  unfold bind at 1. cbn [url_of ret].
  unfold bind at 1.
  rewrite (docker_get_page u w r rest S (success_not_429 _ Su)).
  unfold bind at 1. unfold raise_for_status. rewrite Su. cbn [ret].
  unfold bind at 1. unfold json_of. rewrite B. cbn [or_raise ret].
  unfold bind at 1. cbn [getitem]. rewrite R. cbn [or_raise ret].
  unfold bind at 1. cbn [iterate ret].
  unfold bind at 1. rewrite (store_docker_results_ok _ _ F).
  unfold bind at 1. rewrite X. cbn [or_raise ret].
  reflexivity.
Qed.

Lemma get_tags_docker_loop_chain rs pages urls :
  docker_chain next_is_null rs pages urls ->
  forall fuel u tags w rest,
    u <> EmptyString ->
    (length rs <= fuel)%nat ->
    docker_script w = map Response rs ++ rest ->
    exists w',
      get_tags_docker_loop fuel (JStr u) tags w
      = (Ok (fold_left assign (concat pages) tags), w') /\
      docker_script w' = rest /\
      sent w' = sent w ++ map docker_get_request (u :: urls) /\
      slept w' = slept w /\ clock w' = clock w /\
      quay_script w' = quay_script w /\
      skopeo_script w' = skopeo_script w /\
      spawned w' = spawned w.
Proof.
  induction 1 as [r items next P E | r items url rs pages urls P Nu C IH];
    intros fuel u tags w rest N F S.
  - destruct fuel as [|fuel]; [simpl in F; lia|].
    red in E. subst next. simpl in S.
    rewrite (get_tags_docker_loop_step _ _ _ _ _ _ _ _ N S P).
    exists (answered Docker (mkRequest GET u [] None) rest w). split.
    { cbn [concat]. rewrite app_nil_r. destruct fuel; reflexivity. }
    simpl. auto 10.
  - destruct fuel as [|fuel]; [simpl in F; lia|].
    simpl in S.
    rewrite (get_tags_docker_loop_step _ _ _ _ _ _ _ _ N S P).
    destruct (IH fuel url (fold_left assign items tags)
                (answered Docker (mkRequest GET u [] None)
                          (map Response rs ++ rest) w) rest)
      as (w' & R & S1 & S2 & S3 & S4 & S5 & S6 & S7);
      [exact Nu | simpl in F; lia | reflexivity |].
    exists w'. simpl in *. rewrite fold_left_app.
    split; [exact R|]. split; [exact S1|].
    split; [rewrite S2, <- app_assoc; reflexivity|]. auto.
Qed.

End DockerListing.

(** C5, amended.  For a finite chain of pages of Docker Hub linked by next
    URLs and closed by a page whose [next] is null, [get_tags_docker]
    requests the first URL and then every cursor in turn, reads exactly the
    pages of the chain, and returns the tag map of all their items, in which
    a name has the timestamp of its last occurrence. *)
Theorem get_tags_docker_follows_chain `{PyRuntime} repo rs pages urls rest w :
  docker_script w = map Response rs ++ rest ->
  docker_chain next_is_null rs pages urls ->
  fst (get_tags_docker repo w) = Ok (dict_of (concat pages)) /\
  requests w (snd (get_tags_docker repo w))
  = map docker_get_request (docker_tags_url repo :: urls) /\
  docker_script (snd (get_tags_docker repo w)) = rest /\
  (forall name,
      dict_get name (dict_of (concat pages)) = last_of name (concat pages)).
Proof.
  intros S C. unfold get_tags_docker.
  destruct (get_tags_docker_loop_chain rs pages urls C
              (Datatypes.S (length (docker_script w)))
              (docker_tags_url repo) [] w rest)
    as (w' & R & S1 & S2 & _).
  - unfold docker_tags_url. simpl. discriminate.
  - rewrite S, length_app, length_map. lia.
  - exact S.
  - rewrite R. simpl. fold (dict_of (concat pages)).
    repeat split; auto.
    + now apply requests_app.
    + intros name. apply dict_of_last.
Qed.

Lemma get_tags_docker_follows_chain_witness :
  let w := docker_at 0 [Response docker_page_1; Response docker_page_2] in
  let pages := [ [("latest", at_utc 100); ("1.0", at_utc 50)];
                 [("1.0", at_utc 70)] ] in
  fst (@get_tags_docker sample_runtime "nginx" w) = Ok (dict_of (concat pages)) /\
  requests w (snd (@get_tags_docker sample_runtime "nginx" w))
  = map docker_get_request (docker_tags_url "nginx" :: [second_page_url]) /\
  docker_script (snd (@get_tags_docker sample_runtime "nginx" w)) = [] /\
  (forall name,
      dict_get name (dict_of (concat pages)) = last_of name (concat pages)).
Proof.
  apply (@get_tags_docker_follows_chain sample_runtime "nginx"
           [docker_page_1; docker_page_2]
           [ [("latest", at_utc 100); ("1.0", at_utc 50)];
             [("1.0", at_utc 70)] ]
           [second_page_url] []
           (docker_at 0 [Response docker_page_1; Response docker_page_2])).
  - reflexivity.
  - apply chain_link.
    + split; [reflexivity|]. eexists _, _. split; [reflexivity|].
      split; [reflexivity|]. split; [|reflexivity].
      repeat constructor;
        eexists _, _; (split; [reflexivity|]); repeat split; reflexivity.
    + discriminate.
    + apply chain_end with (next := Some JNull); [|reflexivity].
      split; [reflexivity|]. eexists _, _. split; [reflexivity|].
      split; [reflexivity|]. split; [|reflexivity].
      repeat constructor;
        eexists _, _; (split; [reflexivity|]); repeat split; reflexivity.
Defined.

(** What the listing of the example returns: [1.0] has the timestamp of
    the second page, and keeps its place. *)
Example get_tags_docker_sample :
  fst (@get_tags_docker sample_runtime "nginx"
         (docker_at 0 [Response docker_page_1; Response docker_page_2]))
  = Ok [("latest", at_utc 100); ("1.0", at_utc 70)].
Proof. reflexivity. Qed.

(** On a last page that has no [next] key the listing raises [KeyError]. *)
Example get_tags_docker_absent_next :
  fst (@get_tags_docker sample_runtime "nginx"
         (docker_at 0 [Response docker_page_without_next]))
  = Raise (KeyError "next").
Proof. reflexivity. Qed.

(** C5, as the specification words it, fails: a chain that ends in an
    absent [next] is not followed to a tag map. *)
Lemma docker_listing_absent_next_fails :
  ~ @docker_listing_complete sample_runtime next_is_null_or_absent.
Proof.
  intros C.
  specialize (C "nginx" [docker_page_without_next] [[]] [] []
                (docker_at 0 [Response docker_page_without_next])
                eq_refl).
  rewrite get_tags_docker_absent_next in C.
  assert (D : Raise (KeyError "next") = Ok (dict_of (concat [[]]))
              -> False) by discriminate.
  apply D, C.
  apply chain_end with (next := None); [|right; reflexivity].
  split; [reflexivity|]. exists [("results", JArr [])], [].
  repeat split; constructor.
Qed.

(** ** The destination tag listing *)

Section QuayListing.

Context `{PyRuntime}.





End QuayListing.




(** The listing of the example: the timestamp that came without a zone is
    in UTC, the one in another zone keeps its zone. *)
Example get_tags_quay_sample :
  fst (@get_tags_quay sample_runtime "nginx"
         (quay_at 0 [Response quay_page_1; Response quay_page_2]))
  = Ok [ ("1.0", at_utc 50);
         ("latest", {| wall := 100000000; utcoffset := Some UTC |});
         ("edge", {| wall := 3670000000; utcoffset := Some 3600000000 |}) ].
Proof. reflexivity. Qed.

(** ** Repository metadata *)





(** The run of the example: logo probe and description from Docker Hub,
    then the fetch and the create on Quay, and a normal return. *)
Example ensure_quay_repo_sample :
  fst (@ensure_quay_repo sample_runtime "nginx" unknown_to_quay) = Ok tt /\
  sent (snd (@ensure_quay_repo sample_runtime "nginx" unknown_to_quay))
  = [ docker_get_request
        "https://hub.docker.com/api/media/repos_logo/v1/library%2Fnginx";
      docker_get_request "namespaces/library/repositories/nginx";
      fetch_request "nginx";
      create_request "nginx" sample_description ].
Proof. split; reflexivity. Qed.

(** The two characters the description is built with. *)
Example dquote_nl_codes :
  dquote = String (ascii_of_nat 34) EmptyString /\
  nl = String (ascii_of_nat 10) EmptyString.
Proof. split; reflexivity. Qed.

(** * Further properties *)

(** ** The rate-limited client, for every script *)

Section RequestFrame.

Context `{PyRuntime}.

(** What a call does to the world, whatever Docker Hub answers: it sends
    the same request a number of times, sleeps between the sends, and
    touches nothing else. *)
Lemma request_frame rq : forall calls w,
  exists sends delays consumed,
    sent (snd (DockerClient_request calls rq w))
    = sent w ++ repeat (Docker, rq) sends /\
    slept (snd (DockerClient_request calls rq w)) = slept w ++ delays /\
    clock (snd (DockerClient_request calls rq w)) = clock w + waited delays /\
    docker_script w
    = consumed ++ docker_script (snd (DockerClient_request calls rq w)) /\
    quay_script (snd (DockerClient_request calls rq w)) = quay_script w /\
    skopeo_script (snd (DockerClient_request calls rq w)) = skopeo_script w /\
    spawned (snd (DockerClient_request calls rq w)) = spawned w /\
    (forall r,
        fst (DockerClient_request calls rq w) = Ok r ->
        status_code r <> 429 /\ sends = S (length delays)).
Proof.
  induction calls as [|calls IH]; intros w.
  all: destruct (docker_script w) as [|[r|] rest] eqn:S;
    [ rewrite request_unfold; unfold bind, send; cbn [script_of]; rewrite S;
      exists 1%nat, [], []; simpl; rewrite app_nil_r;
      repeat split; try lia; discriminate
    |
    | rewrite request_unfold; unfold bind, send; cbn [script_of]; rewrite S;
      exists 1%nat, [], [NoResponse]; simpl; rewrite app_nil_r;
      repeat split; try lia; discriminate ].
  all: destruct (status_code r =? 429) eqn:Eb;
    [ | rewrite request_unfold; unfold bind, send; cbn [script_of];
        rewrite S, Eb; cbn [negb];
        exists 1%nat, [], [Response r]; simpl; rewrite app_nil_r;
        repeat split; try lia;
        match goal with
        | Q : Ok _ = Ok _ |- _ => injection Q as <-
        | Q : fst _ = Ok _ |- _ => simpl in Q; injection Q as <-
        end;
        apply Z.eqb_neq in Eb; exact Eb ].
  all: assert (E : status_code r = 429) by now apply Z.eqb_eq.
  all: destruct (retry_after r) as [header|] eqn:Hh;
    [ | rewrite request_unfold; unfold bind, send; cbn [script_of];
        rewrite S, Eb, Hh; cbn [negb or_raise raise];
        exists 1%nat, [], [Response r]; simpl; rewrite app_nil_r;
        repeat split; try lia; discriminate ].
  all: destruct (py_int header) as [seconds|] eqn:Hv;
    [ | rewrite request_unfold; unfold bind, send; cbn [script_of];
        rewrite S, Eb, Hh; cbn [negb or_raise ret raise]; rewrite Hv;
        exists 1%nat, [], [Response r]; simpl; rewrite app_nil_r;
        repeat split; try lia; discriminate ].
  - rewrite (request_step_limit rq w r rest header seconds S E Hh Hv).
    set (delay := seconds * 1000000 - clock w).
    exists 1%nat, [delay], [Response r].
    cbn [fst snd asyncio_sleep answered sent slept clock docker_script
         quay_script skopeo_script spawned repeat waited app].
    repeat split; try discriminate.
    destruct (delay <=? 0) eqn:D;
      [apply Z.leb_le in D | apply Z.leb_gt in D]; lia.
  - rewrite (request_step_429 calls rq w r rest header seconds S E Hh Hv).
    set (delay := seconds * 1000000 - clock w).
    set (w2 := snd (asyncio_sleep delay (answered Docker rq rest w))).
    destruct (IH w2)
      as (sends & delays & consumed & S1 & S2 & S3 & S4 & S5 & S6
          & S7 & S8).
    exists (Datatypes.S sends), (delay :: delays),
           (Response r :: consumed).
    rewrite S1, S2, S3, S5, S6, S7.
    split; [subst w2; simpl; now rewrite <- app_assoc|].
    split; [subst w2; simpl; now rewrite <- app_assoc|].
    split.
    { subst w2. cbn [waited asyncio_sleep snd clock answered].
      destruct (delay <=? 0) eqn:D;
        [apply Z.leb_le in D | apply Z.leb_gt in D]; lia. }
    split; [simpl; f_equal; exact S4|].
    repeat split; try reflexivity.
    + now apply S8.
    + match goal with Q : fst _ = Ok _ |- _ => apply S8 in Q end.
      simpl. lia.
Qed.

Lemma waited_nonneg delays : 0 <= waited delays.
Proof. induction delays; simpl; lia. Qed.

End RequestFrame.

(** X1.  [DockerClient.request] never hands a 429 to its caller: a response
    it returns has another status, and it was preceded by one sleep for
    every send but the last. *)
Theorem request_never_returns_429 `{PyRuntime} rq w r :
  fst (docker_request rq w) = Ok r ->
  status_code r <> 429 /\
  length (requests w (snd (docker_request rq w)))
  = S (length (sleeps w (snd (docker_request rq w)))).
Proof.
  unfold docker_request. intros R.
  destruct (request_frame rq nested_calls w)
    as (sends & delays & consumed & S1 & S2 & _ & _ & _ & _ & _ & S8).
  destruct (S8 r R) as (N & ->).
  rewrite (requests_app _ _ _ S1), (sleeps_app _ _ _ S2), repeat_length.
  auto.
Qed.

Lemma request_never_returns_429_witness :
  status_code unavailable <> 429 /\
  length (requests twice_limited
            (snd (@docker_request sample_runtime sample_request twice_limited)))
  = S (length (sleeps twice_limited
                 (snd (@docker_request sample_runtime sample_request
                                       twice_limited)))).
Proof.
  apply (@request_never_returns_429 sample_runtime sample_request
           twice_limited unavailable).
  reflexivity.
Defined.

(** X2.  Whatever Docker Hub answers, a call of [DockerClient.request]
    sends nothing but repetitions of the request it was given, the time it
    takes is the sum of its positive delays (the clock never goes back), it
    reads answers from the front of Docker Hub's script only, and it leaves
    Quay and the copy tool alone. *)
Theorem request_effects_confined `{PyRuntime} rq w :
  (exists sends,
      requests w (snd (docker_request rq w)) = repeat (Docker, rq) sends) /\
  elapsed w (snd (docker_request rq w))
  = waited (sleeps w (snd (docker_request rq w))) /\
  0 <= elapsed w (snd (docker_request rq w)) /\
  (exists consumed,
      docker_script w = consumed ++ docker_script (snd (docker_request rq w))) /\
  quay_script (snd (docker_request rq w)) = quay_script w /\
  skopeo_script (snd (docker_request rq w)) = skopeo_script w /\
  spawned (snd (docker_request rq w)) = spawned w.
Proof.
  unfold docker_request.
  destruct (request_frame rq nested_calls w)
    as (sends & delays & consumed & S1 & S2 & S3 & S4 & S5 & S6 & S7 & _).
  rewrite (requests_app _ _ _ S1), (sleeps_app _ _ _ S2).
  unfold elapsed. rewrite S3.
  pose proof (waited_nonneg delays).
  repeat split; eauto; lia.
Qed.

(** X3.  A 429 that has no [Retry-After] header makes the call raise
    [KeyError]: nothing is slept, nothing is sent again, and the answers
    that follow stay unread. *)
Theorem request_missing_header_raises `{PyRuntime} rq w r rest :
  docker_script w = Response r :: rest ->
  status_code r = 429 ->
  retry_after r = None ->
  docker_request rq w
  = (Raise (KeyError "Retry-After"), answered Docker rq rest w).
Proof.
  intros S E Hh. unfold docker_request. rewrite request_unfold.
  unfold bind, send. cbn [script_of]. rewrite S, E, Hh. reflexivity.
Qed.

Lemma request_missing_header_raises_witness :
  @docker_request sample_runtime sample_request
    (docker_at 0 [Response limited_without_header; Response unavailable])
  = (Raise (KeyError "Retry-After"),
     answered Docker sample_request [Response unavailable]
       (docker_at 0 [Response limited_without_header; Response unavailable])).
Proof.
  apply (@request_missing_header_raises sample_runtime sample_request
           (docker_at 0 [Response limited_without_header;
                         Response unavailable])
           limited_without_header [Response unavailable]); reflexivity.
Defined.

(** X4.  A 429 whose [Retry-After] is not an integer for [int] (an HTTP
    date, say) makes the call raise [ValueError], again without a sleep or
    a second send. *)
Theorem request_bad_header_raises `{PyRuntime} rq w r rest header :
  docker_script w = Response r :: rest ->
  status_code r = 429 ->
  retry_after r = Some header ->
  py_int header = None ->
  docker_request rq w = (Raise ValueError, answered Docker rq rest w).
Proof.
  intros S E Hh Hv. unfold docker_request. rewrite request_unfold.
  unfold bind, send. cbn [script_of]. rewrite S, E, Hh.
  cbn [Z.eqb Pos.eqb negb or_raise ret]. rewrite Hv. reflexivity.
Qed.

Lemma request_bad_header_raises_witness :
  @docker_request sample_runtime sample_request
    (docker_at 0 [Response limited_until_date; Response unavailable])
  = (Raise ValueError,
     answered Docker sample_request [Response unavailable]
       (docker_at 0 [Response limited_until_date; Response unavailable])).
Proof.
  apply (@request_bad_header_raises sample_runtime sample_request
           (docker_at 0 [Response limited_until_date; Response unavailable])
           limited_until_date [Response unavailable]
           "Wed, 21 Oct 2026 07:28:00 GMT"); reflexivity.
Defined.



Section PastHeaders.

Context `{PyRuntime}.


End PastHeaders.



(** ** Reasoning about frames and results *)

Section Frames.

Variable R : world -> world -> Prop.
Hypothesis R_refl : forall w, R w w.
Hypothesis R_trans : forall a b c, R a b -> R b c -> R a c.

Lemma keeps_ret {A} (a : A) : keeps R (ret a).
Proof. intros w. apply R_refl. Qed.

Lemma keeps_raise {A} e : keeps R (@raise A e).
Proof. intros w. apply R_refl. Qed.

Lemma keeps_stop {A} h : keeps R (@stop A h).
Proof. intros w. apply R_refl. Qed.

Lemma keeps_lift {A} (o : outcome A) : keeps R (lift o).
Proof. intros w. apply R_refl. Qed.

Lemma keeps_or_raise {A} e (o : option A) : keeps R (or_raise e o).
Proof. destruct o; [apply keeps_ret | apply keeps_raise]. Qed.

Lemma keeps_bind {A B} (m : M A) (k : A -> M B) :
  keeps R m -> (forall a, keeps R (k a)) -> keeps R (bind m k).
Proof.
  intros Km Kk w. unfold bind. specialize (Km w).
  destruct (m w) as [[a| |] w1]; simpl in *; auto.
  eapply R_trans; [exact Km | apply Kk].
Qed.

Lemma keeps_getitem j key : keeps R (getitem j key).
Proof.
  destruct j; simpl; try apply keeps_raise. apply keeps_or_raise.
Qed.

Lemma keeps_iterate j : keeps R (iterate j).
Proof. destruct j; simpl; try apply keeps_raise; apply keeps_ret. Qed.

Lemma keeps_raise_for_status r : keeps R (raise_for_status r).
Proof.
  unfold raise_for_status.
  destruct (is_success r); [apply keeps_ret | apply keeps_raise].
Qed.

Lemma keeps_json_of r : keeps R (json_of r).
Proof. apply keeps_or_raise. Qed.

Lemma keeps_dict_key j : keeps R (dict_key j).
Proof.
  destruct j; simpl;
    try apply keeps_raise; try apply keeps_stop; apply keeps_ret.
Qed.

Lemma keeps_store_docker_results `{PyRuntime} results :
  forall tags, keeps R (store_docker_results results tags).
Proof.
  induction results as [|result results IH]; intros tags; simpl;
    [apply keeps_ret|].
  apply keeps_bind; [apply keeps_getitem | intros last_updated].
  apply keeps_bind; [| intros d].
  { destruct last_updated; try apply keeps_raise. apply keeps_or_raise. }
  apply keeps_bind; [apply keeps_getitem | intros name].
  apply keeps_bind; [apply keeps_dict_key | intros key]. apply IH.
Qed.


End Frames.

Lemma yields_bind {A B} (P : A -> Prop) (Q : B -> Prop)
  (m : M A) (k : A -> M B) :
  yields P m -> (forall a, P a -> yields Q (k a)) -> yields Q (bind m k).
Proof.
  intros Ym Yk w b. unfold bind. specialize (Ym w).
  destruct (m w) as [[a| |] w1]; simpl in *; try discriminate.
  apply Yk. now apply Ym.
Qed.

Lemma yields_any {A B} (Q : B -> Prop) (m : M A) (k : A -> M B) :
  (forall a, yields Q (k a)) -> yields Q (bind m k).
Proof.
  intros Yk. apply (yields_bind (fun _ => True)); [intros w a _; exact I|].
  intros a _. apply Yk.
Qed.

Lemma yields_raise {A} (Q : A -> Prop) e : yields Q (raise e).
Proof. intros w a. discriminate. Qed.

Lemma yields_stop {A} (Q : A -> Prop) h : yields Q (stop h).
Proof. intros w a. discriminate. Qed.

Lemma yields_ret {A} (Q : A -> Prop) a : Q a -> yields Q (ret a).
Proof. intros H w b [= <-]. exact H. Qed.

(** ** What the reads from Docker Hub touch *)

Lemma only_docker_gets_refl w : only_docker_gets w w.
Proof.
  unfold only_docker_gets. repeat split; try lia.
  exists []. split; [now rewrite app_nil_r | constructor].
Qed.

Lemma only_docker_gets_trans a b c :
  only_docker_gets a b -> only_docker_gets b c -> only_docker_gets a c.
Proof.
  intros ((l1 & S1 & F1) & C1 & Q1 & K1 & P1)
         ((l2 & S2 & F2) & C2 & Q2 & K2 & P2).
  unfold only_docker_gets. repeat split; try congruence; try lia.
  exists (l1 ++ l2). split.
  - rewrite S2, S1, app_assoc. reflexivity.
  - apply Forall_app. auto.
Qed.

Lemma keeps_docker_get `{PyRuntime} url :
  keeps only_docker_gets (docker_get url).
Proof.
  intros w. unfold docker_get, docker_request.
  destruct (request_frame (mkRequest GET url [] None) nested_calls w)
    as (sends & delays & consumed & S1 & S2 & S3 & S4 & S5 & S6 & S7 & _).
  pose proof (waited_nonneg delays).
  unfold only_docker_gets. repeat split; auto; try lia.
  exists (repeat (Docker, mkRequest GET url [] None) sends).
  split; [exact S1|].
  apply Forall_forall. intros x I. apply repeat_spec in I. subst x.
  now exists url.
Qed.

Lemma keeps_get_tags_docker_loop `{PyRuntime} :
  forall fuel url tags,
    keeps only_docker_gets (get_tags_docker_loop fuel url tags).
Proof.
  pose proof only_docker_gets_refl as Rf.
  pose proof only_docker_gets_trans as Tr.
  induction fuel as [|fuel IH]; intros url tags;
    cbn [get_tags_docker_loop]; destruct (truthy url);
    try (apply keeps_ret; assumption); try (apply keeps_stop; assumption).
  apply keeps_bind; [assumption | | intros u].
  { destruct url; simpl; try (apply keeps_raise; assumption).
    apply keeps_ret; assumption. }
  apply keeps_bind; [assumption | apply keeps_docker_get | intros r].
  apply keeps_bind; [assumption | now apply keeps_raise_for_status | intros _].
  apply keeps_bind; [assumption | now apply keeps_json_of | intros j].
  apply keeps_bind; [assumption | now apply keeps_getitem | intros results].
  apply keeps_bind; [assumption | now apply keeps_iterate | intros items].
  apply keeps_bind;
    [assumption | now apply keeps_store_docker_results | intros tags'].
  apply keeps_bind; [assumption | now apply keeps_getitem | intros next].
  apply IH.
Qed.


(** Names stay distinct through the assignments of a page. *)
Lemma yields_store_docker_results `{PyRuntime} results :
  forall tags,
    distinct_names tags ->
    yields distinct_names (store_docker_results results tags).
Proof.
  induction results as [|result results IH]; intros tags N; simpl.
  - now apply yields_ret.
  - apply yields_any; intros last_updated.
    apply yields_any; intros d.
    apply yields_any; intros name.
    apply yields_any; intros key.
    apply IH. now apply dict_set_NoDup.
Qed.

Lemma yields_get_tags_docker_loop `{PyRuntime} :
  forall fuel url tags,
    distinct_names tags ->
    yields distinct_names (get_tags_docker_loop fuel url tags).
Proof.
  induction fuel as [|fuel IH]; intros url tags N;
    cbn [get_tags_docker_loop]; destruct (truthy url);
    try (now apply yields_ret); try apply yields_stop.
  apply yields_any; intros u.
  apply yields_any; intros r.
  apply yields_any; intros _.
  apply yields_any; intros j.
  apply yields_any; intros results.
  apply yields_any; intros items.
  apply (yields_bind distinct_names);
    [now apply yields_store_docker_results | intros tags' N'].
  apply yields_any; intros next.
  now apply IH.
Qed.

(** X5.  Whatever Docker Hub answers, [get_tags_docker] only sends GET
    requests to Docker Hub: it sends nothing to Quay, runs no process, and
    the clock does not go back. *)
Theorem get_tags_docker_reads_only_docker_hub `{PyRuntime} repo w :
  only_docker_gets w (snd (get_tags_docker repo w)) /\
  to_quay (requests w (snd (get_tags_docker repo w))) = [].
Proof.
  assert (O : only_docker_gets w (snd (get_tags_docker repo w))).
  { unfold get_tags_docker. apply keeps_get_tags_docker_loop. }
  split; [exact O|].
  destruct O as ((log & S & F) & _).
  rewrite (requests_app _ _ _ S).
  clear S. induction F as [|x log (u & ->) _ IH]; [reflexivity | exact IH].
Qed.

(** X6.  A tag map that [get_tags_docker] returns has distinct names,
    whatever the pages held. *)
Theorem get_tags_docker_names_distinct `{PyRuntime} repo w tags :
  fst (get_tags_docker repo w) = Ok tags ->
  distinct_names tags.
Proof.
  unfold get_tags_docker. apply yields_get_tags_docker_loop. constructor.
Qed.

Lemma get_tags_docker_names_distinct_witness :
  distinct_names [("latest", at_utc 100); ("1.0", at_utc 70)].
Proof.
  apply (@get_tags_docker_names_distinct sample_runtime "nginx"
           (docker_at 0 [Response docker_page_1; Response docker_page_2])).
  reflexivity.
Defined.

(** ** The source tag listing under rate limits *)

Section DockerWalk.

Context `{PyRuntime}.





End DockerWalk.



(** X8.  A page that comes back with a status outside 2xx (and other than
    429) makes [get_tags_docker] raise [HTTPStatusError] with that
    response: one request was sent, no tag map is returned, and the
    answers that follow stay unread. *)
Theorem get_tags_docker_error_status_raises `{PyRuntime} repo w r rest :
  docker_script w = Response r :: rest ->
  status_code r <> 429 ->
  is_success r = false ->
  get_tags_docker repo w
  = (Raise (HTTPStatusError r),
     answered Docker (snd (docker_get_request (docker_tags_url repo))) rest w).
Proof.
  intros S N F. unfold get_tags_docker.
  cbn [get_tags_docker_loop].
  rewrite truthy_url by (unfold docker_tags_url; simpl; discriminate).
  unfold bind at 1. cbn [url_of ret].
  unfold bind at 1. rewrite (docker_get_page _ _ _ _ S N).
  unfold bind at 1. unfold raise_for_status. rewrite F. reflexivity.
Qed.

Lemma get_tags_docker_error_status_raises_witness :
  @get_tags_docker sample_runtime "nginx"
    (docker_at 0 [Response server_error; Response docker_page_2])
  = (Raise (HTTPStatusError server_error),
     answered Docker (snd (docker_get_request (docker_tags_url "nginx")))
       [Response docker_page_2]
       (docker_at 0 [Response server_error; Response docker_page_2])).
Proof.
  apply (@get_tags_docker_error_status_raises sample_runtime "nginx"
           (docker_at 0 [Response server_error; Response docker_page_2])
           server_error [Response docker_page_2]).
  - reflexivity.
  - unfold server_error. simpl. lia.
  - reflexivity.
Defined.

(** ** The destination tag listing, for every script *)

Lemma dict_set_In {V} k (v : V) d name v' :
  In (name, v') (dict_set k v d) -> v' = v \/ In (name, v') d.
Proof.
  induction d as [|[k0 v0] d IH]; simpl.
  - intros [[= _ <-]|[]]. now left.
  - destruct (String.eqb k0 k); simpl.
    + intros [[= _ <-]|I]; auto.
    + intros [E|I]; [auto | destruct (IH I); auto].
Qed.

Lemma assume_utc_aware d : is_aware (assume_utc d) = true.
Proof.
  unfold assume_utc, is_aware.
  destruct (utcoffset d) eqn:U; simpl; [now rewrite U | reflexivity].
Qed.

Lemma yields_store_quay_tags `{PyRuntime} items :
  forall tags,
    sound_tags tags -> yields sound_tags (store_quay_tags items tags).
Proof.
  induction items as [|tag items IH]; intros tags (N & A); simpl.
  - apply yields_ret. now split.
  - apply yields_any; intros last_modified.
    apply yields_any; intros d.
    apply yields_any; intros name.
    apply yields_any; intros key.
    apply IH. split; [now apply dict_set_NoDup|].
    intros n d' I. apply dict_set_In in I as [->|I]; [|eauto].
    apply (assume_utc_aware d).
Qed.

Lemma yields_get_tags_quay_loop `{PyRuntime} repo :
  forall fuel page tags,
    sound_tags tags ->
    yields sound_tags (get_tags_quay_loop fuel repo page tags).
Proof.
  induction fuel as [|fuel IH]; intros page tags N;
    cbn [get_tags_quay_loop]; destruct (page_truthy page), page;
    try (now apply yields_ret); try apply yields_stop.
  apply yields_any; intros r.
  apply yields_any; intros _.
  apply yields_any; intros j.
  apply yields_any; intros items.
  apply yields_any; intros items'.
  apply (yields_bind sound_tags);
    [now apply yields_store_quay_tags | intros tags' N'].
  apply yields_any; intros more.
  now apply IH.
Qed.

(** X9.  Whatever Quay answers, a tag map that [get_tags_quay] returns has
    distinct names and only timezone-aware timestamps. *)
Theorem get_tags_quay_always_aware `{PyRuntime} repo w tags :
  fst (get_tags_quay repo w) = Ok tags ->
  distinct_names tags /\ all_aware tags.
Proof.
  unfold get_tags_quay. apply yields_get_tags_quay_loop.
  split; [constructor | intros n d []].
Qed.

Lemma get_tags_quay_always_aware_witness :
  distinct_names
    [ ("1.0", at_utc 50);
      ("latest", {| wall := 100000000; utcoffset := Some UTC |});
      ("edge", {| wall := 3670000000; utcoffset := Some 3600000000 |}) ] /\
  all_aware
    [ ("1.0", at_utc 50);
      ("latest", {| wall := 100000000; utcoffset := Some UTC |});
      ("edge", {| wall := 3670000000; utcoffset := Some 3600000000 |}) ].
Proof.
  apply (@get_tags_quay_always_aware sample_runtime "nginx"
           (quay_at 0 [Response quay_page_1; Response quay_page_2])).
  reflexivity.
Defined.



(** X11.  Quay's client does not back off: a first answer with a status
    outside 2xx, a 429 with a [Retry-After] included, makes
    [get_tags_quay] raise [HTTPStatusError] with that response after one
    request, without a sleep and without reading further answers. *)
Theorem get_tags_quay_does_not_retry `{PyRuntime} repo w r rest :
  quay_script w = Response r :: rest ->
  is_success r = false ->
  get_tags_quay repo w
  = (Raise (HTTPStatusError r),
     answered Quay (snd (quay_tags_request repo 1)) rest w).
Proof.
  intros S F. unfold get_tags_quay.
  cbn [get_tags_quay_loop page_truthy Z.eqb negb].
  unfold bind at 1. unfold quay_get, send. cbn [script_of]. rewrite S.
  unfold bind at 1. unfold raise_for_status. rewrite F. reflexivity.
Qed.

Lemma get_tags_quay_does_not_retry_witness :
  @get_tags_quay sample_runtime "nginx" quay_limited
  = (Raise (HTTPStatusError (rate_limited "1700000003")),
     answered Quay (snd (quay_tags_request "nginx" 1))
              [Response quay_page_2] quay_limited).
Proof.
  apply (@get_tags_quay_does_not_retry sample_runtime "nginx" quay_limited
           (rate_limited "1700000003") [Response quay_page_2]); reflexivity.
Defined.

(** ** Repository metadata, for every script *)





Section Compose.

Context `{PyRuntime}.

(** The two reads of [compose_description], when neither is rate-limited. *)
Lemma compose_description_reads repo w probe info rest :
  docker_script w = Response probe :: Response info :: rest ->
  status_code probe <> 429 ->
  status_code info <> 429 ->
  compose_description repo w =
  (raise_for_status info ;;;
   info <- json_of info ;;
   short <- getitem info "description" ;;
   short <- format_value short ;;
   full <- getitem info "full_description" ;;
   str_add (dedent (preamble_text
                      (if is_success probe || is_redirect probe
                       then logo_img repo else EmptyString)
                      short repo)) full)
    (answered Docker
       (snd (docker_get_request ("namespaces/library/repositories/" +++ repo)))
       rest
       (answered Docker (snd (docker_get_request (logo_url repo)))
                 (Response info :: rest) w)).
Proof.
  intros S N1 N2. unfold compose_description.
  unfold bind at 1. rewrite (docker_get_page _ _ _ _ S N1).
  unfold bind at 1.
  rewrite (docker_get_page _ _ info rest) by (reflexivity || exact N2).
  destruct (is_success probe || is_redirect probe); reflexivity.
Qed.

End Compose.

(** X13.  The logo probe is never an error: whatever status it comes back
    with (other than a 429, which is retried), the description is composed,
    with the image tag when the status is 2xx or 3xx and without it
    otherwise (a 404 or a 500, say). *)
Theorem compose_description_logo_optional `{PyRuntime}
  repo w probe info rest fields short full :
  docker_script w = Response probe :: Response info :: rest ->
  status_code probe <> 429 ->
  is_success info = true ->
  json_body info = Some (JObj fields) ->
  lookup "description" fields = Some (JStr short) ->
  lookup "full_description" fields = Some (JStr full) ->
  fst (compose_description repo w)
  = Ok (dedent (preamble_text
                  (if (200 <=? status_code probe) && (status_code probe <=? 399)
                   then logo_img repo else EmptyString)
                  short repo) +++ full).
Proof.
  intros S N Su B D F.
  rewrite (compose_description_reads repo w probe info rest S N
             (success_not_429 _ Su)).
  unfold bind at 1. unfold raise_for_status. rewrite Su. cbn [ret].
  unfold bind at 1. unfold json_of. rewrite B. cbn [or_raise ret].
  unfold bind at 1. cbn [getitem]. rewrite D. cbn [or_raise ret].
  unfold bind at 1. cbn [format_value ret].
  unfold bind at 1. cbn [getitem]. rewrite F. cbn [or_raise ret str_add fst].
  replace (is_success probe || is_redirect probe)
    with ((200 <=? status_code probe) && (status_code probe <=? 399));
    [reflexivity|].
  unfold is_success, is_redirect.
  destruct (200 <=? status_code probe) eqn:A;
    destruct (status_code probe <=? 399) eqn:B';
    destruct (status_code probe <=? 299) eqn:C;
    destruct (300 <=? status_code probe) eqn:D'; try reflexivity;
    repeat match goal with
           | Q : (_ <=? _) = true |- _ => apply Z.leb_le in Q
           | Q : (_ <=? _) = false |- _ => apply Z.leb_gt in Q
           end; lia.
Qed.

Lemma compose_description_logo_optional_witness :
  fst (@compose_description sample_runtime "nginx" unknown_to_quay)
  = Ok (@dedent sample_runtime
          (preamble_text
             (if (200 <=? status_code not_found)
                 && (status_code not_found <=? 399)
              then logo_img "nginx" else EmptyString)
             "Official build of Nginx." "nginx") +++ "# Quick reference").
Proof.
  apply (@compose_description_logo_optional sample_runtime "nginx"
           unknown_to_quay not_found sample_info []
           [ ("name", JStr "nginx");
             ("description", JStr "Official build of Nginx.");
             ("full_description", JStr "# Quick reference") ]);
    try reflexivity.
  unfold not_found. simpl. lia.
Defined.

(** X14.  When Docker Hub answers the repository read with a status outside
    2xx, [ensure_quay_repo] raises [HTTPStatusError] with that response and
    Quay's script is left unread. *)
Theorem ensure_quay_repo_info_error_raises `{PyRuntime}
  repo w probe info rest :
  docker_script w = Response probe :: Response info :: rest ->
  status_code probe <> 429 ->
  status_code info <> 429 ->
  is_success info = false ->
  fst (ensure_quay_repo repo w) = Raise (HTTPStatusError info) /\
  quay_script (snd (ensure_quay_repo repo w)) = quay_script w /\
  docker_script (snd (ensure_quay_repo repo w)) = rest.
Proof.
  intros S N1 N2 F.
  assert (E : exists w', ensure_quay_repo repo w
                         = (Raise (HTTPStatusError info), w') /\
                         quay_script w' = quay_script w /\
                         docker_script w' = rest).
  { unfold ensure_quay_repo. unfold bind at 1.
    rewrite (compose_description_reads repo w probe info rest S N1 N2).
    unfold bind at 1. unfold raise_for_status. rewrite F.
    eexists. split; [reflexivity|]. split; reflexivity. }
  destruct E as (w' & -> & Q & D). auto.
Qed.

Lemma ensure_quay_repo_info_error_raises_witness :
  let w := docker_then_quay [Response not_found; Response server_error]
                            [Response not_found; Response created] in
  fst (@ensure_quay_repo sample_runtime "nginx" w)
  = Raise (HTTPStatusError server_error) /\
  quay_script (snd (@ensure_quay_repo sample_runtime "nginx" w))
  = quay_script w /\
  docker_script (snd (@ensure_quay_repo sample_runtime "nginx" w)) = [].
Proof.
  apply (@ensure_quay_repo_info_error_raises sample_runtime "nginx"
           (docker_then_quay [Response not_found; Response server_error]
                             [Response not_found; Response created])
           not_found server_error []);
    try reflexivity; simpl; lia.
Defined.

(** X15.  A repository whose [full_description] is not a string (Docker
    Hub sends null when there is none) cannot be described: line 90 raises
    [TypeError], before Quay is contacted. *)
Theorem ensure_quay_repo_full_description_not_str `{PyRuntime}
  repo w probe info rest fields short full :
  docker_script w = Response probe :: Response info :: rest ->
  status_code probe <> 429 ->
  is_success info = true ->
  json_body info = Some (JObj fields) ->
  lookup "description" fields = Some (JStr short) ->
  lookup "full_description" fields = Some full ->
  (forall s, full <> JStr s) ->
  fst (ensure_quay_repo repo w) = Raise TypeError /\
  quay_script (snd (ensure_quay_repo repo w)) = quay_script w.
Proof.
  intros S N Su B D F NS.
  assert (E : exists w', ensure_quay_repo repo w = (Raise TypeError, w') /\
                         quay_script w' = quay_script w).
  { unfold ensure_quay_repo. unfold bind at 1.
    rewrite (compose_description_reads repo w probe info rest S N
               (success_not_429 _ Su)).
    unfold bind at 1. unfold raise_for_status. rewrite Su. cbn [ret].
    unfold bind at 1. unfold json_of. rewrite B. cbn [or_raise ret].
    unfold bind at 1. cbn [getitem]. rewrite D. cbn [or_raise ret].
    unfold bind at 1. cbn [format_value ret].
    unfold bind at 1. cbn [getitem]. rewrite F. cbn [or_raise ret].
    destruct full; try (eexists; split; reflexivity).
    exfalso. eapply NS. reflexivity. }
  destruct E as (w' & -> & Q). auto.
Qed.

Lemma ensure_quay_repo_full_description_not_str_witness :
  let w := docker_then_quay [Response not_found; Response info_without_full]
                            [Response not_found; Response created] in
  fst (@ensure_quay_repo sample_runtime "nginx" w) = Raise TypeError /\
  quay_script (snd (@ensure_quay_repo sample_runtime "nginx" w))
  = quay_script w.
Proof.
  apply (@ensure_quay_repo_full_description_not_str sample_runtime "nginx"
           (docker_then_quay [Response not_found; Response info_without_full]
                             [Response not_found; Response created])
           not_found info_without_full []
           [ ("name", JStr "nginx");
             ("description", JStr "Official build of Nginx.");
             ("full_description", JNull) ]
           "Official build of Nginx." JNull);
    try reflexivity; discriminate.
Defined.

(** X16.  The write is checked: after a 404 on the fetch, the outcome of
    [ensure_description] is that of the create, a normal return when Quay
    answers it with a 2xx and [HTTPStatusError] with Quay's response
    otherwise; in both cases nothing is sent after the POST. *)
Theorem ensure_description_create_checked repo description w r answer rest :
  quay_script w = Response r :: Response answer :: rest ->
  status_code r = 404 ->
  fst (ensure_description repo description w)
  = (if is_success answer then Ok tt else Raise (HTTPStatusError answer)) /\
  requests w (snd (ensure_description repo description w))
  = [fetch_request repo; create_request repo description] /\
  quay_script (snd (ensure_description repo description w)) = rest.
Proof.
  intros S E.
  assert (F : is_success r = false) by (unfold is_success; now rewrite E).
  unfold ensure_description, bind, except_status, quay_get, quay_post, send,
    raise_for_status, requests.
  cbn [script_of]. rewrite S, F. cbn [raise]. rewrite E.
  cbn [Z.eqb Pos.eqb negb answered script_of quay_script].
  destruct (is_success answer); cbn [ret raise fst snd sent answered quay_script];
    rewrite <- app_assoc, skipn_length_app; repeat split.
Qed.

Lemma ensure_description_create_checked_witness :
  let w := docker_then_quay [] [Response not_found; Response forbidden] in
  fst (ensure_description "nginx" sample_description w)
  = (if is_success forbidden then Ok tt
     else Raise (HTTPStatusError forbidden)) /\
  requests w (snd (ensure_description "nginx" sample_description w))
  = [fetch_request "nginx"; create_request "nginx" sample_description] /\
  quay_script (snd (ensure_description "nginx" sample_description w)) = [].
Proof.
  apply (ensure_description_create_checked "nginx" sample_description
           (docker_then_quay [] [Response not_found; Response forbidden])
           not_found forbidden []); reflexivity.
Defined.

(** ** The decision loop, for every outcome *)

(** X17.  In a run of [sync] that completes, the copy invocations are
    exactly the stale tags of the source map, each once and in the order
    of the source map, and nothing but the copy tool was used. *)
Theorem sync_copies_in_source_order repo auth_file tags_docker tags_quay w w' :
  sync repo auth_file tags_docker tags_quay w = (Ok tt, w') ->
  copies w w'
  = map (skopeo_args repo auth_file)
        (map fst (filter (needs_copy tags_quay) tags_docker)) /\
  only_spawns w w'.
Proof.
  intros E. split.
  - apply copies_app. now apply sync_ok_exact.
  - apply sync_trace in E as (_ & _ & O & _). exact O.
Qed.

Lemma sync_copies_in_source_order_witness :
  copies (with_skopeo [Exited 0; Exited 0] quiet)
         (snd (sync "nginx" "/tmp/auth.json"
                    [("edge", at_utc 70); ("1.0", at_utc 50);
                     ("latest", at_utc 100)]
                    sample_dest (with_skopeo [Exited 0; Exited 0] quiet)))
  = map (skopeo_args "nginx" "/tmp/auth.json")
        (map fst (filter (needs_copy sample_dest)
                         [("edge", at_utc 70); ("1.0", at_utc 50);
                          ("latest", at_utc 100)])) /\
  only_spawns (with_skopeo [Exited 0; Exited 0] quiet)
              (snd (sync "nginx" "/tmp/auth.json"
                         [("edge", at_utc 70); ("1.0", at_utc 50);
                          ("latest", at_utc 100)]
                         sample_dest (with_skopeo [Exited 0; Exited 0] quiet))).
Proof.
  apply (sync_copies_in_source_order "nginx" "/tmp/auth.json"
           [("edge", at_utc 70); ("1.0", at_utc 50); ("latest", at_utc 100)]
           sample_dest (with_skopeo [Exited 0; Exited 0] quiet)).
  reflexivity.
Defined.

Lemma sync_processed repo auth_file tags_quay tags_docker : forall w,
  exists processed remaining,
    tags_docker = processed ++ remaining /\
    spawned (snd (sync repo auth_file tags_docker tags_quay w))
    = spawned w ++ map (skopeo_args repo auth_file)
                       (map fst (filter (needs_copy tags_quay) processed)) /\
    (fst (sync repo auth_file tags_docker tags_quay w) = Ok tt ->
     remaining = []).
Proof.
  induction tags_docker as [|[tag src] rest IH]; intros w.
  - exists [], []. simpl. rewrite app_nil_r. auto.
  - simpl. unfold bind.
    destruct (dict_get tag tags_quay) as [q|] eqn:G.
    + unfold lift, dt_ge. destruct (dt_compare q src) as [[]|] eqn:C.
      * destruct (IH w) as (p & r & -> & S & O).
        exists ((tag, src) :: p), r. simpl. unfold needs_copy at 1. simpl.
        rewrite G, C. auto.
      * destruct (subprocess_run (skopeo_args repo auth_file tag) w)
          as [[[]| |] w1] eqn:R;
          apply subprocess_run_spec in R as (R1 & _).
        -- destruct (IH w1) as (p & r & -> & S & O).
           exists ((tag, src) :: p), r. simpl. unfold needs_copy at 1. simpl.
           rewrite G, C. simpl. rewrite S, R1, <- app_assoc. auto.
        -- exists [(tag, src)], rest. simpl. unfold needs_copy. simpl.
           rewrite G, C. simpl. repeat split; auto; discriminate.
        -- exists [(tag, src)], rest. simpl. unfold needs_copy. simpl.
           rewrite G, C. simpl. repeat split; auto; discriminate.
      * destruct (IH w) as (p & r & -> & S & O).
        exists ((tag, src) :: p), r. simpl. unfold needs_copy at 1. simpl.
        rewrite G, C. auto.
      * exists [], ((tag, src) :: rest). simpl. rewrite app_nil_r.
        repeat split; auto; discriminate.
    + unfold ret.
      destruct (subprocess_run (skopeo_args repo auth_file tag) w)
        as [[[]| |] w1] eqn:R;
        apply subprocess_run_spec in R as (R1 & _).
      * destruct (IH w1) as (p & r & -> & S & O).
        exists ((tag, src) :: p), r. simpl. unfold needs_copy at 1. simpl.
        rewrite G. simpl. rewrite S, R1, <- app_assoc. auto.
      * exists [(tag, src)], rest. simpl. unfold needs_copy. simpl.
        rewrite G. simpl. repeat split; auto; discriminate.
      * exists [(tag, src)], rest. simpl. unfold needs_copy. simpl.
        rewrite G. simpl. repeat split; auto; discriminate.
Qed.

(** X18.  Whatever its outcome, [sync] has worked through an initial
    segment of the source map and copied exactly the stale tags of that
    segment, in order: a failure never skips a tag to copy a later one, and
    a run that completes has gone through the whole map. *)
Theorem sync_copies_initial_segment repo auth_file tags_docker tags_quay w :
  exists processed remaining,
    tags_docker = processed ++ remaining /\
    copies w (snd (sync repo auth_file tags_docker tags_quay w))
    = map (skopeo_args repo auth_file)
          (map fst (filter (needs_copy tags_quay) processed)) /\
    (fst (sync repo auth_file tags_docker tags_quay w) = Ok tt ->
     remaining = []).
Proof.
  destruct (sync_processed repo auth_file tags_quay tags_docker w)
    as (p & r & E & S & O).
  exists p, r. split; [exact E|]. split; [now apply copies_app | exact O].
Qed.

(** X19.  A source timestamp without a zone cannot be compared with the
    zoned timestamp Quay has for the same tag: [sync] raises [TypeError]
    at that tag, which is not copied, and goes no further. *)
Theorem sync_naive_source_raises
  repo auth_file pre tag source_time post tags_quay w w1 dest_time :
  sync repo auth_file pre tags_quay w = (Ok tt, w1) ->
  dict_get tag tags_quay = Some dest_time ->
  is_aware dest_time = true ->
  utcoffset source_time = None ->
  sync repo auth_file (pre ++ (tag, source_time) :: post) tags_quay w
  = (Raise TypeError, w1).
Proof.
  intros E G A N. rewrite sync_app. unfold bind at 1. rewrite E.
  simpl. unfold bind. rewrite G. unfold lift, dt_ge, dt_compare.
  unfold is_aware in A. rewrite N.
  destruct (utcoffset dest_time); [reflexivity | discriminate].
Qed.

Lemma sync_naive_source_raises_witness :
  sync "nginx" "/tmp/auth.json"
       ([("latest", at_utc 100)] ++ ("1.0", naive_50) :: [("edge", at_utc 70)])
       sample_dest (with_skopeo [Exited 0; Exited 0] quiet)
  = (Raise TypeError,
     snd (sync "nginx" "/tmp/auth.json" [("latest", at_utc 100)] sample_dest
               (with_skopeo [Exited 0; Exited 0] quiet))).
Proof.
  apply (sync_naive_source_raises "nginx" "/tmp/auth.json"
           [("latest", at_utc 100)] "1.0" naive_50 [("edge", at_utc 70)]
           sample_dest (with_skopeo [Exited 0; Exited 0] quiet)
           (snd (sync "nginx" "/tmp/auth.json" [("latest", at_utc 100)]
                      sample_dest (with_skopeo [Exited 0; Exited 0] quiet)))
           (at_utc 50)); reflexivity.
Defined.

(** X20.  When every timestamp of both tag maps carries a zone, the only
    exceptions [sync] can raise are those of the copy tool: a non-zero exit
    or a tool that could not be started; a comparison never fails. *)
Theorem sync_zoned_only_tool_errors
  repo auth_file tags_docker tags_quay w e :
  all_aware tags_docker ->
  all_aware tags_quay ->
  fst (sync repo auth_file tags_docker tags_quay w) = Raise e ->
  (exists code, e = CalledProcessError code /\ code <> 0) \/ e = OSError.
Proof.
  intros Ad Aq. revert w.
  induction tags_docker as [|[tag src] rest IH]; intros w; [discriminate|].
  assert (Ar : all_aware rest) by (intros n d I; apply (Ad n d); now right).
  assert (As : is_aware src = true) by (apply (Ad tag src); now left).
  assert (Step : forall w0,
             fst ((subprocess_run (skopeo_args repo auth_file tag) ;;;
                   sync repo auth_file rest tags_quay) w0) = Raise e ->
             (exists code, e = CalledProcessError code /\ code <> 0)
             \/ e = OSError).
  { intros w0. unfold bind, subprocess_run.
    destruct (skopeo_script w0) as [|[code|] script]; try discriminate.
    - destruct (code =? 0) eqn:Z.
      + apply IH. exact Ar.
      + intros [= <-]. left. exists code. split; [reflexivity|].
        now apply Z.eqb_neq.
    - intros [= <-]. now right. }
  simpl. unfold bind at 1.
  destruct (dict_get tag tags_quay) as [q|] eqn:G.
  - assert (Aw : is_aware q = true)
      by (apply (Aq tag q); now apply dict_get_In).
    unfold lift, dt_ge, dt_compare. unfold is_aware in As, Aw.
    destruct (utcoffset q); [|discriminate].
    destruct (utcoffset src); [|discriminate].
    destruct (wall q - z ?= wall src - z0); try (apply IH; exact Ar).
    apply Step.
  - unfold ret. apply Step.
Qed.

Lemma sync_zoned_only_tool_errors_witness :
  (exists code, CalledProcessError 1 = CalledProcessError code /\ code <> 0)
  \/ CalledProcessError 1 = OSError.
Proof.
  apply (sync_zoned_only_tool_errors "nginx" "/tmp/auth.json"
           sample_source sample_dest (with_skopeo [Exited 1] quiet)
           (CalledProcessError 1)).
  - intros n d [[= _ <-]|[[= _ <-]|[]]]; reflexivity.
  - intros n d [[= _ <-]|[]]; reflexivity.
  - reflexivity.
Defined.
